(** * pyChemInfo: a shallow embedding of [pyChemInfo.py]

    The script asks remote compound databases for a name, builds
    [Compound] records from the XML they answer with, prints the records
    and optionally writes them to a file.

    Everything the script touches outside its own memory is made explicit:
    - the network is a function [Net] from the requests made so far and a
      URL to what the remote side answers;
    - the process state [World] holds the URLs requested, the text written
      to standard output, and the file system;
    - a Python exception is a value of [exn].

    The script is Python 3 only ([urllib.parse], [print(..., end="")],
    [metaclass=]); it is modelled as run by the plain interpreter, with
    [assert] statements active. *)

From Stdlib Require Import String Ascii List Bool Arith NArith Lia.
From stdpp Require Import gmap strings list.

Import ListNotations.
Set Warnings "-register-all".
Local Open Scope string_scope.
Local Open Scope list_scope.

(** * Python values *)

(** A [str], or [None] ([Element.text] of an element without text, and
    every record field such a text is assigned to). *)
Abbreviation pystr := (option string).

(** ["%s" % v] for a [str] or [None]. *)
Definition fmt_s (v : pystr) : string :=
  match v with
  | Some s => s
  | None => "None"
  end.

(** * XML trees, as [xml.etree.ElementTree] shows them

    The script reads [tag], [text], the children (iterating or slicing an
    element) and [iter()]; attributes and tails are never looked at. *)

Inductive Element : Type :=
  mkElement { tag : string; text : pystr; children : list Element }.

(** [e.iter()]: the element itself, then its descendants, in document
    order. *)
Fixpoint iter (e : Element) : list Element :=
  match e with
  | mkElement _ _ cs => e :: flat_map iter cs
  end.

(** * Exceptions *)

Inductive exn : Type :=
| URLError (url : string)            (* urlopen could not complete the request *)
| ParseError (url : string)          (* ET.parse rejected the body *)
| NameError (name : string)          (* name '...' is not defined *)
| AttributeError (attr : string)     (* 'NoneType' object has no attribute '...' *)
| TypeError (msg : string)
| AssertionError (msg : string)
| IsADirectoryError (path : string)
| SystemExit (code : nat).

Inductive outcome (A : Type) : Type :=
| Returns (a : A)
| Raises (e : exn).
Arguments Returns {A} a.
Arguments Raises {A} e.

(** * The world outside the script *)

(** What a request yields once the transport succeeded: a body that
    [ET.parse] accepts, shown as its root element, or one it rejects. *)
Inductive body : Type :=
| NotXml
| Xml (root : Element).

(** The remote side. The answer to a URL may depend on the requests made
    before it; [None] is a transport failure (no connection, a status that
    is not a success). *)
Definition Net : Type := list string -> string -> option body.

Inductive fsnode : Type :=
| File (contents : string)
| Directory.

Record World : Type := mkWorld {
  requests : list string;            (* URLs opened so far, oldest first *)
  stdout : string;                   (* text written to standard output *)
  files : gmap string fsnode         (* path -> what is there *)
}.

Definition add_request (url : string) (w : World) : World :=
  {| requests := requests w ++ [url]; stdout := stdout w; files := files w |}.

Definition add_stdout (s : string) (w : World) : World :=
  {| requests := requests w; stdout := stdout w +:+ s; files := files w |}.

Definition set_files (fs : gmap string fsnode) (w : World) : World :=
  {| requests := requests w; stdout := stdout w; files := fs |}.

(** * Computations: read the network, thread the world, may raise *)

Definition M (A : Type) : Type := Net -> World -> outcome A * World.

Definition ret {A} (a : A) : M A := fun _ w => (Returns a, w).

Definition bind {A B} (m : M A) (k : A -> M B) : M B :=
  fun net w =>
    match m net w with
    | (Returns a, w') => k a net w'
    | (Raises e, w') => (Raises e, w')
    end.

Definition raise {A} (e : exn) : M A := fun _ w => (Raises e, w).

Declare Scope py_scope.
Delimit Scope py_scope with py.
Notation "x <- c1 ;; c2" := (bind c1 (fun x => c2))
  (at level 100, c1 at next level, right associativity) : py_scope.
Notation "c1 ;; c2" := (bind c1 (fun _ => c2))
  (at level 100, right associativity) : py_scope.
Local Open Scope py_scope.

(** A name that is bound nowhere: not a local of the function, not a
    global of the module, not a builtin. Evaluating it raises. *)
Definition unbound {A} (name : string) : M A := raise (NameError name).

(** [urllib.request.urlopen(url)] followed by [ET.parse(response).getroot()]. *)
Definition urlopen (url : string) : M body :=
  fun net w =>
    match net (requests w) url with
    | Some b => (Returns b, add_request url w)
    | None => (Raises (URLError url), add_request url w)
    end.

Definition ET_parse_getroot (url : string) (b : body) : M Element :=
  match b with
  | Xml root => ret root
  | NotXml => raise (ParseError url)
  end.

(** [print(s)] and [print(s, end="")]. *)
Definition print (s : string) : M unit :=
  fun _ w => (Returns tt, add_stdout (s +:+ String "010" "") w).

Definition print_noend (s : string) : M unit :=
  fun _ w => (Returns tt, add_stdout s w).

(** ** Loops

    [for x in l: body], with the loop variables in [s]. The body says how
    it left: by reaching its end, by [continue] or by [break]. *)
Inductive signal : Type := Normal | Continue | Break.

Fixpoint for_in {A S} (l : list A) (body : A -> S -> M (signal * S)) (s : S) : M S :=
  match l with
  | [] => ret s
  | x :: l' =>
      r <- body x s ;;
      match r with
      | (Break, s') => ret s'
      | (Normal, s') | (Continue, s') => for_in l' body s'
      end
  end.

(** * The compound record *)

(** The attributes [Compound.__init__] creates, under their own names. *)
Record Compound : Type := mkCompound {
  _imageUrl : pystr;
  _formula : pystr;
  _smiles : pystr;
  _name : pystr;
  _csid : pystr;
  _molWeight : pystr;
  _database : pystr
}.

Module CompoundClass.

(** [Compound()]: every attribute is [str()], the empty string. *)
Definition init : Compound :=
  {| _imageUrl := Some ""; _formula := Some ""; _smiles := Some "";
     _name := Some ""; _csid := Some ""; _molWeight := Some "";
     _database := Some "" |}.

(** The property setters. *)
Definition set_database (v : pystr) (c : Compound) : Compound :=
  {| _imageUrl := _imageUrl c; _formula := _formula c; _smiles := _smiles c;
     _name := _name c; _csid := _csid c; _molWeight := _molWeight c;
     _database := v |}.

Definition set_name (v : pystr) (c : Compound) : Compound :=
  {| _imageUrl := _imageUrl c; _formula := _formula c; _smiles := _smiles c;
     _name := v; _csid := _csid c; _molWeight := _molWeight c;
     _database := _database c |}.

Definition set_smiles (v : pystr) (c : Compound) : Compound :=
  {| _imageUrl := _imageUrl c; _formula := _formula c; _smiles := v;
     _name := _name c; _csid := _csid c; _molWeight := _molWeight c;
     _database := _database c |}.

Definition set_csid (v : pystr) (c : Compound) : Compound :=
  {| _imageUrl := _imageUrl c; _formula := _formula c; _smiles := _smiles c;
     _name := _name c; _csid := v; _molWeight := _molWeight c;
     _database := _database c |}.

Definition set_molWeight (v : pystr) (c : Compound) : Compound :=
  {| _imageUrl := _imageUrl c; _formula := _formula c; _smiles := _smiles c;
     _name := _name c; _csid := _csid c; _molWeight := v;
     _database := _database c |}.

End CompoundClass.

(** * Small pieces of the Python library *)

(** [v == s] for [v] a [str] or [None] and [s] a [str]. *)
Definition pystr_eqb (v : pystr) (s : string) : bool :=
  match v with
  | Some t => String.eqb t s
  | None => false
  end.

(** [assert type(v) == str or type(v) == unicode, ...]. For a [str] the
    [or] stops at its first operand. For anything else the second operand
    is evaluated, and Python 3 has no name [unicode]. *)
Definition assert_str (v : pystr) : M string :=
  match v with
  | Some s => ret s
  | None => unbound "unicode"
  end.

(** [e.text] where [e] may be [None]. *)
Definition dot_text (e : option Element) : M pystr :=
  match e with
  | Some e => ret (text e)
  | None => raise (AttributeError "text")
  end.

(** ** [urllib.parse.quote(s)] with its default [safe='/']

    A [string] here is the UTF-8 encoding of the Python [str]: [quote]
    encodes its argument the same way before it looks at the bytes. *)
Module urllib_parse.

Definition _ALWAYS_SAFE : list ascii :=
  list_ascii_of_string
    "ABCDEFGHIJKLMNOPQRSTUVWXYZabcdefghijklmnopqrstuvwxyz0123456789_.-~".

Definition is_safe (c : ascii) : bool :=
  existsb (Ascii.eqb c) (_ALWAYS_SAFE ++ list_ascii_of_string "/").

Definition hex_digit (n : nat) : ascii :=
  match String.get n "0123456789ABCDEF" with
  | Some d => d
  | None => "0"%char
  end.

(** [chr(b) if b in safe else '%{:02X}'.format(b)] *)
Definition quoter (c : ascii) : string :=
  if is_safe c then String c ""
  else
    let b := nat_of_ascii c in
    String "%" (String (hex_digit (b / 16)) (String (hex_digit (b mod 16)) "")).

Fixpoint quote (s : string) : string :=
  match s with
  | EmptyString => ""
  | String c s' => quoter c +:+ quote s'
  end.

End urllib_parse.

(** * The backends *)

(** [AbstractOnlineDatabase]: what a backend class has to provide. *)
Record AbstractOnlineDatabase : Type := mkOnlineDatabase {
  odb_name : string;
  odb_search : string -> M (list Compound)
}.

(** The module-level token. *)
Definition CHEMSPIDER_TOKEN : string := "".

Module PubChem.

Definition name : string := "PubChem".

(** The two URLs the class builds with [%]. *)
Definition search_resturl (query : string) : string :=
  "http://pubchem.ncbi.nlm.nih.gov/rest/pug/compound/name/" +:+ query +:+ "/cids"
  +:+ "/XML".

Definition cid_resturl (cid : string) : string :=
  "http://pubchem.ncbi.nlm.nih.gov/rest/pug/compound/cid/" +:+ cid +:+ "/"
  +:+ "record/XML".

Definition tag_InfoData : string := "{http://www.ncbi.nlm.nih.gov}PC-InfoData".
Definition tag_Urn_label : string := "{http://www.ncbi.nlm.nih.gov}PC-Urn_label".
Definition tag_value_sval : string :=
  "{http://www.ncbi.nlm.nih.gov}PC-InfoData_value_sval".

(** The body of [for child in props]: find the label and the value under
    [child] (the first match of [child.iter()], [None] without one), then
    copy the value's text for the two labels the record keeps. *)
Definition read_prop (child : Element) (compound : Compound) : M (signal * Compound) :=
  let label := List.find (fun item => String.eqb (tag item) tag_Urn_label) (iter child) in
  let value := List.find (fun item => String.eqb (tag item) tag_value_sval) (iter child) in
  label_text <- dot_text label ;;
  compound <-
    (if pystr_eqb label_text "IUPAC Name"
     then value_text <- dot_text value ;;
          ret (CompoundClass.set_name value_text compound)
     else ret compound) ;;
  label_text <- dot_text label ;;
  compound <-
    (if pystr_eqb label_text "SMILES"
     then value_text <- dot_text value ;;
          ret (CompoundClass.set_smiles value_text compound)
     else ret compound) ;;
  ret (Normal, compound).

Definition getCompoundFromCID (cid : pystr) : M Compound :=
  cid <- assert_str cid ;;
  let compound := CompoundClass.init in
  let compound := CompoundClass.set_database (Some name) compound in
  let compound := CompoundClass.set_csid (Some cid) compound in
  let resturl := cid_resturl cid in
  response <- urlopen resturl ;;
  root <- ET_parse_getroot resturl response ;;
  let props :=
    List.filter (fun element => String.eqb (tag element) tag_InfoData) (iter root) in
  for_in props read_prop compound.

Definition search (query : string) : M (list Compound) :=
  let compounds := [] in
  let resturl := search_resturl query in
  response <- urlopen resturl ;;
  root <- ET_parse_getroot resturl response ;;
  for_in (rev (children root))
    (fun child compounds =>
       compound <- getCompoundFromCID (text child) ;;
       ret (Break, compounds ++ [compound]))
    compounds.

Definition class : AbstractOnlineDatabase :=
  {| odb_name := name; odb_search := search |}.

End PubChem.

Module ChemSpiderOD.

Definition name : string := "ChemSpider".

Definition searchurl (query : string) : string :=
  "http://www.chemspider.com/Search.asmx/"
  +:+ "SimpleSearch?query=" +:+ urllib_parse.quote query
  +:+ "&token=" +:+ CHEMSPIDER_TOKEN.

Definition apiurl (csid : string) : string :=
  "http://www.chemspider.com/MassSpecAPI.asmx/"
  +:+ "GetExtendedCompoundInfo?CSID=" +:+ csid +:+ "&token=" +:+ CHEMSPIDER_TOKEN.

(** The body of [for child in root] in [getCompoundFromCSID]. *)
Definition read_field (child : Element) (compound : Compound) : Compound :=
  let tag := tag child in
  let text := text child in
  if String.eqb tag "{http://www.chemspider.com/}SMILES"
  then CompoundClass.set_smiles text compound
  else if String.eqb tag "{http://www.chemspider.com/}CSID"
  then CompoundClass.set_csid text compound
  else if String.eqb tag "{http://www.chemspider.com/}MolecularWeight"
  then CompoundClass.set_molWeight text compound
  else if String.eqb tag "{http://www.chemspider.com/}CommonName"
  then CompoundClass.set_name text compound
  else compound.

Definition getCompoundFromCSID (csid : pystr) : M Compound :=
  csid <- assert_str csid ;;
  let compound := CompoundClass.init in
  let compound := CompoundClass.set_database (Some name) compound in
  let apiurl := apiurl csid in
  response <- urlopen apiurl ;;
  root <- ET_parse_getroot apiurl response ;;
  for_in (children root)
    (fun child compound => ret (Normal, read_field child compound))
    compound.

Definition search (query : string) : M (list Compound) :=
  let compounds := [] in
  let searchurl := searchurl query in
  response <- urlopen searchurl ;;
  root <- ET_parse_getroot searchurl response ;;
  for_in (children root)
    (fun child compounds =>
       compound <- getCompoundFromCSID (text child) ;;
       ret (Normal, compounds ++ [compound]))
    compounds.

Definition class : AbstractOnlineDatabase :=
  {| odb_name := name; odb_search := search |}.

End ChemSpiderOD.

(** * The coordinator *)

Module ChemInfo.

Section Registry.

(** What [AbstractOnlineDatabase.__subclasses__()] holds when it is
    asked: the backend classes defined so far, in definition order. *)
Variable subclasses : list AbstractOnlineDatabase.

Definition getOnlineDatabases : list AbstractOnlineDatabase := subclasses.

Definition search (query : string) (first : bool) : M (list Compound) :=
  let compounds := [] in
  for_in getOnlineDatabases
    (fun odb compounds =>
       found <- odb_search odb query ;;
       let compounds := compounds ++ found in
       if first && (0 <? length compounds)%nat
       then ret (Continue, compounds)
       else ret (Normal, compounds))
    compounds.

End Registry.

End ChemInfo.

(** The registry of the script as it stands: its two backend classes. *)
Definition registered : list AbstractOnlineDatabase :=
  [PubChem.class; ChemSpiderOD.class].

(** * The command line program *)

(** [needle in hay] for two [str]. *)
Fixpoint str_in (needle hay : string) : bool :=
  String.prefix needle hay
  || match hay with
     | EmptyString => false
     | String _ hay' => str_in needle hay'
     end.

(** [s.split(sep)] for a one-character separator. *)
Fixpoint split (sep : ascii) (s : string) : list string :=
  match s with
  | EmptyString => [""]
  | String c s' =>
      if Ascii.eqb c sep then "" :: split sep s'
      else
        match split sep s' with
        | piece :: pieces => String c piece :: pieces
        | [] => [String c ""]
        end
  end.

(** [open(path, "w")]: the file is created or emptied; the handle is the
    path. Missing parent directories and permissions are not modelled. *)
Definition open_w (path : string) : M string :=
  fun _ w =>
    match files w !! path with
    | Some Directory => (Raises (IsADirectoryError path), w)
    | _ => (Returns path, set_files (<[path := File ""]> (files w)) w)
    end.

Definition append_to (s : string) (n : fsnode) : fsnode :=
  match n with
  | File contents => File (contents +:+ s)
  | Directory => Directory
  end.

(** [outFile.write(s)]. *)
Definition file_write (outFile : string) (s : string) : M unit :=
  fun _ w => (Returns tt, set_files (alter (append_to s) outFile (files w)) w).

(** [os.path.exists(path)]. *)
Definition os_path_exists (path : string) : M bool :=
  fun _ w => (Returns (bool_decide (is_Some (files w !! path))), w).

(** What [getopt.getopt] makes of [sys.argv[1:]]. *)
Inductive getopt_result : Type :=
| GetoptError (msg : string)
| Parsed (opts : list (string * string)) (args : list string).

(** The locals of [main] that the option loop sets. *)
Record options : Type := mkOptions {
  output : option string;
  forceOutput : bool;
  names : option (list string);
  verbose : bool
}.

Definition NL : string := String "010" "".

(** [for compound in compounds] where [compounds] may still be [None]. *)
Definition iterable (compounds : option (list Compound)) : M (list Compound) :=
  match compounds with
  | Some l => ret l
  | None => raise (TypeError "'NoneType' object is not iterable")
  end.

Definition print_compound (compound : Compound) (u : unit) : M (signal * unit) :=
  print "---------" ;;
  print ("Database: " +:+ fmt_s (_database compound)) ;;
  print ("Name:     " +:+ fmt_s (_name compound)) ;;
  print ("CSID:     " +:+ fmt_s (_csid compound)) ;;
  print ("SMILES:   " +:+ fmt_s (_smiles compound)) ;;
  ret (Normal, u).

Definition write_compound (outFile : string) (compound : Compound) (u : unit)
  : M (signal * unit) :=
  file_write outFile ("---------" +:+ NL) ;;
  file_write outFile ("Database: " +:+ fmt_s (_database compound) +:+ NL) ;;
  file_write outFile ("Name:     " +:+ fmt_s (_name compound) +:+ NL) ;;
  file_write outFile ("CSID:     " +:+ fmt_s (_csid compound) +:+ NL) ;;
  file_write outFile ("SMILES:   " +:+ fmt_s (_smiles compound) +:+ NL) ;;
  ret (Normal, u).

(** The last step of [main]: write the output to a file if a file name
    was given. *)
Definition write_output (output : option string) (forceOutput : bool)
  (compounds : option (list Compound)) : M unit :=
  match output with
  | Some output =>
      there <- os_path_exists output ;;
      if there && negb forceOutput
      then print "The file already exist. I won't write any data."
      else
        outFile <- open_w output ;;
        l <- iterable compounds ;;
        for_in l (write_compound outFile) tt ;;
        file_write outFile "---------"
  | None => ret tt
  end.

Section Main.

Variable subclasses : list AbstractOnlineDatabase.

(** The body of [for o, a in opts]. *)
Definition read_option (oa : string * string) (st : options) : M (signal * options) :=
  let (o, a) := oa in
  if String.eqb o "-v"
  then ret (Normal, mkOptions (output st) (forceOutput st) (names st) true)
  else if str_in o "-f"
  then ret (Normal, mkOptions (output st) true (names st) (verbose st))
  else if String.eqb o "-l" || String.eqb o "--list-databases"
  then
    print_noend "List of available Online Database Modules: " ;;
    print (String.concat ","
             (map odb_name (ChemInfo.getOnlineDatabases subclasses))) ;;
    raise (SystemExit 0)
  else if String.eqb o "-n" || String.eqb o "--names"
  then ret (Normal, mkOptions (output st) (forceOutput st) (Some (split "," a)) (verbose st))
  else if String.eqb o "-h" || String.eqb o "--help"
  then
    @unbound unit "usage" ;;
    raise (SystemExit 0)
  else if String.eqb o "-o" || String.eqb o "--output"
  then ret (Normal, mkOptions (Some a) (forceOutput st) (names st) (verbose st))
  else raise (AssertionError "unhandle option").

(** The body of [for name in names]; the loop variable kept is
    [compounds]. *)
Definition search_name (name : string) (compounds : option (list Compound))
  : M (signal * option (list Compound)) :=
  found <- ChemInfo.search subclasses name true ;;
  let compounds := Some found in
  if (length found <? 1)%nat
  then
    odb <- @unbound AbstractOnlineDatabase "odb" ;;
    print ("Cannot find '" +:+ name +:+ "' in " +:+ odb_name odb +:+ ".") ;;
    ret (Continue, compounds)
  else ret (Normal, compounds).

Definition main (parsed : getopt_result) : M unit :=
  match parsed with
  | GetoptError error =>
      print error ;;
      @unbound unit "usage" ;;
      raise (SystemExit 2)
  | Parsed opts args =>
      st <- for_in opts read_option (mkOptions None false None false) ;;
      match names st with
      | None =>
          print "You are pleased to specify one or more name(s)." ;;
          raise (SystemExit 2)
      | Some names =>
          compounds <- for_in names search_name None ;;
          print "" ;;
          l <- iterable compounds ;;
          for_in l print_compound tt ;;
          print ("---------" +:+ NL) ;;
          write_output (output st) (forceOutput st) compounds
      end
  end.

End Main.

(** * Vocabulary of the statements *)

(** Ask every backend in turn and put the answers one after the other
    (an exception of a backend is the only thing that ends it): what the
    coordinator is said to do when nothing stops it early. *)
Fixpoint query_all (odbs : list AbstractOnlineDatabase) (query : string)
  : M (list Compound) :=
  match odbs with
  | [] => ret []
  | odb :: odbs' =>
      found <- odb_search odb query ;;
      others <- query_all odbs' query ;;
      ret (found ++ others)
  end.

(** [answers net query odbs w founds w']: run one after the other from
    [w], the searches of [odbs] return the lists [founds] and leave [w']. *)
Inductive answers (net : Net) (query : string)
  : list AbstractOnlineDatabase -> World -> list (list Compound) -> World -> Prop :=
| answers_nil w : answers net query [] w [] w
| answers_cons odb odbs w found w1 founds w2 :
    odb_search odb query net w = (Returns found, w1) ->
    answers net query odbs w1 founds w2 ->
    answers net query (odb :: odbs) w (found :: founds) w2.

(** The record [ChemSpiderOD.getCompoundFromCSID] builds from a detail
    document: the fields of the root's children, read in order. *)
Definition chemspider_record (root : Element) : Compound :=
  fold_left (fun compound child => ChemSpiderOD.read_field child compound)
    (children root)
    (CompoundClass.set_database (Some ChemSpiderOD.name) CompoundClass.init).

(** A PubChem detail document in which every [PC-InfoData] element has a
    label and a string value somewhere under it. *)
Definition labelled (child : Element) : bool :=
  existsb (fun item => String.eqb (tag item) PubChem.tag_Urn_label) (iter child)
  && existsb (fun item => String.eqb (tag item) PubChem.tag_value_sval) (iter child).

Definition well_labelled (root : Element) : bool :=
  forallb labelled
    (List.filter (fun element => String.eqb (tag element) PubChem.tag_InfoData)
       (iter root)).

(** The world after [urls] were requested from [w], in that order. *)
Definition add_requests (urls : list string) (w : World) : World :=
  {| requests := requests w ++ urls; stdout := stdout w; files := files w |}.

(** ** What a computation leaves alone *)

(** [stays R m]: at any remote side and from any world, [m] ends, by
    returning or by raising, in a world that [R] relates to the one it
    started in. *)
Definition stays (R : World -> World -> Prop) {A} (m : M A) : Prop :=
  forall net w, R w (snd (m net w)).

(** Nothing printed, no file touched, and the requests made so far still
    there, with [asked] after them. *)
Definition only_asked (w w' : World) : Prop :=
  stdout w' = stdout w /\ files w' = files w
  /\ exists asked, requests w' = requests w ++ asked.

Definition same_files (w w' : World) : Prop := files w' = files w.

(** Every path but [path] holds what it held. *)
Definition only_at (path : string) (w w' : World) : Prop :=
  forall p, p <> path -> files w' !! p = files w !! p.

(** ** The text of the records *)

(** The five lines [main] writes for one record, to the file as to the
    standard output. *)
Definition block (compound : Compound) : string :=
  ("---------" +:+ NL)
  +:+ ("Database: " +:+ fmt_s (_database compound) +:+ NL)
  +:+ ("Name:     " +:+ fmt_s (_name compound) +:+ NL)
  +:+ ("CSID:     " +:+ fmt_s (_csid compound) +:+ NL)
  +:+ ("SMILES:   " +:+ fmt_s (_smiles compound) +:+ NL).

Fixpoint blocks (compounds : list Compound) : string :=
  match compounds with
  | [] => ""
  | compound :: compounds' => block compound +:+ blocks compounds'
  end.

(** ** Detail answers of ChemSpider *)

(** [chemspider_answered net w query ids details]: in a search for
    [query] started in [w], the detail request for the [i]-th of [ids],
    made after the search request and the [i] detail requests before it,
    is answered with the [i]-th of [details]. *)
Definition chemspider_answered (net : Net) (w : World) (query : string)
  (ids : list string) (details : list Element) : Prop :=
  length details = length ids
  /\ forall i id d,
      ids !! i = Some id -> details !! i = Some d ->
      net (requests w ++ ChemSpiderOD.searchurl query
                         :: map ChemSpiderOD.apiurl (take i ids))
          (ChemSpiderOD.apiurl id)
      = Some (Xml d).

(** The elements [ChemSpiderOD.getCompoundFromCSID] reads, by local name,
    and the attribute each goes to. *)
Definition chemspider_fields : list (string * (Compound -> pystr)) :=
  [("SMILES", _smiles); ("CSID", _csid);
   ("MolecularWeight", _molWeight); ("CommonName", _name)].

(** ** Detail documents of PubChem *)

(** The [PC-InfoData] elements of a document, in document order. *)
Definition pubchem_props (root : Element) : list Element :=
  List.filter (fun element => String.eqb (tag element) PubChem.tag_InfoData)
    (iter root).

(** The text of the label and of the string value under a [PC-InfoData]
    element, [None] where there is no such element or it has no text. *)
Definition label_text (child : Element) : pystr :=
  match List.find (fun item => String.eqb (tag item) PubChem.tag_Urn_label)
          (iter child) with
  | Some label => text label
  | None => None
  end.

Definition value_text (child : Element) : pystr :=
  match List.find (fun item => String.eqb (tag item) PubChem.tag_value_sval)
          (iter child) with
  | Some value => text value
  | None => None
  end.

(** The elements the detail step gets past: those with a label, and with
    a string value if the label is one of the two it copies. *)
Definition readable (child : Element) : bool :=
  match List.find (fun item => String.eqb (tag item) PubChem.tag_Urn_label)
          (iter child) with
  | None => false
  | Some label =>
      if pystr_eqb (text label) "IUPAC Name" || pystr_eqb (text label) "SMILES"
      then match List.find
                   (fun item => String.eqb (tag item) PubChem.tag_value_sval)
                   (iter child) with
           | Some _ => true
           | None => false
           end
      else true
  end.

(** What a readable element does to the record. *)
Definition pubchem_read (compound : Compound) (child : Element) : Compound :=
  let compound :=
    if pystr_eqb (label_text child) "IUPAC Name"
    then CompoundClass.set_name (value_text child) compound
    else compound in
  if pystr_eqb (label_text child) "SMILES"
  then CompoundClass.set_smiles (value_text child) compound
  else compound.

(** The record of a document all of whose elements are readable. *)
Definition pubchem_record (cid : string) (root : Element) : Compound :=
  fold_left pubchem_read (pubchem_props root)
    (CompoundClass.set_csid (Some cid)
       (CompoundClass.set_database (Some PubChem.name) CompoundClass.init)).

(** ** Command lines *)

(** The option names [getopt.getopt] can hand to [main], given the short
    options [hfo:n:lv] and the long options of the call. *)
Definition getopt_options : list string :=
  ["-h"; "-f"; "-o"; "-n"; "-l"; "-v";
   "--help"; "--output"; "--names"; "--list-databases"].

(** Those among them that only set a local of [main]. *)
Definition setting_options : list string :=
  ["-v"; "-f"; "-o"; "--output"; "-n"; "--names"].

(** [names_answered subclasses net names w founds w']: searched one after
    the other from [w], as [main] does, every name of [names] has records,
    those of [founds], and the searches leave [w']. *)
Inductive names_answered (subclasses : list AbstractOnlineDatabase) (net : Net)
  : list string -> World -> list (list Compound) -> World -> Prop :=
| names_answered_nil w : names_answered subclasses net [] w [] w
| names_answered_cons name names w found w1 founds w2 :
    ChemInfo.search subclasses name true net w = (Returns found, w1) ->
    found <> [] ->
    names_answered subclasses net names w1 founds w2 ->
    names_answered subclasses net (name :: names) w (found :: founds) w2.

(** ** Sample documents and remote sides *)

Module Sample.

Definition leaf (tag text : string) : Element := mkElement tag (Some text) [].

Definition node (tag : string) (children : list Element) : Element :=
  mkElement tag None children.

Definition pc (local : string) : string := "{http://www.ncbi.nlm.nih.gov}" +:+ local.
Definition cs (local : string) : string := "{http://www.chemspider.com/}" +:+ local.

(** A [PC-InfoData] node as PubChem sends it. *)
Definition info_data (label value : string) : Element :=
  node (pc "PC-InfoData")
    [ node (pc "PC-InfoData_urn")
        [ node (pc "PC-Urn")
            [ leaf (pc "PC-Urn_label") label;
              leaf (pc "PC-Urn_datatype") "1" ] ];
      node (pc "PC-InfoData_value")
        [ leaf (pc "PC-InfoData_value_sval") value ] ].

(** The same node with its label missing. *)
Definition info_data_unlabelled (value : string) : Element :=
  node (pc "PC-InfoData")
    [ node (pc "PC-InfoData_urn") [ node (pc "PC-Urn") [] ];
      node (pc "PC-InfoData_value")
        [ leaf (pc "PC-InfoData_value_sval") value ] ].

Definition pubchem_ids : Element :=
  node "{http://pubchem.ncbi.nlm.nih.gov/pug_rest}IdentifierList"
    [ leaf "{http://pubchem.ncbi.nlm.nih.gov/pug_rest}CID" "2244";
      leaf "{http://pubchem.ncbi.nlm.nih.gov/pug_rest}CID" "517180" ].

Definition pubchem_record : Element :=
  node (pc "PC-Compounds")
    [ node (pc "PC-Compound")
        [ node (pc "PC-Compound_props")
            [ info_data "Molecular Formula" "C9H8O4";
              info_data "IUPAC Name" "2-acetyloxybenzoic acid";
              info_data "SMILES" "CC(=O)OC1=CC=CC=C1C(=O)O" ] ] ].

Definition pubchem_record_unlabelled : Element :=
  node (pc "PC-Compounds")
    [ node (pc "PC-Compound")
        [ node (pc "PC-Compound_props")
            [ info_data_unlabelled "C9H8O4" ] ] ].

Definition chemspider_ids : Element :=
  node (cs "ArrayOfInt") [ leaf (cs "int") "2157"; leaf (cs "int") "10442445" ].

Definition chemspider_info (csid name smiles weight : string) : Element :=
  node (cs "ExtendedCompoundInfo")
    [ leaf (cs "CSID") csid;
      leaf (cs "MF") "C_{9}H_{8}O_{4}";
      leaf (cs "SMILES") smiles;
      leaf (cs "MolecularWeight") weight;
      leaf (cs "CommonName") name ].

Definition no_ids (tag : string) : Element := node tag [].

Definition chemspider_aspirin : Element :=
  chemspider_info "2157" "Aspirin" "CC(=O)Oc1ccccc1C(=O)O" "180.1574".

Definition chemspider_aspirin_sodium : Element :=
  chemspider_info "10442445" "Aspirin sodium" "CC(=O)Oc1ccccc1C(=O)[O-].[Na+]"
    "202.1392".

(** A remote side that knows aspirin and answers any other search with an
    empty list of ids; what it does not know it refuses. *)
Definition net : Net := fun _ url =>
  if String.eqb url (PubChem.search_resturl "aspirin")
  then Some (Xml pubchem_ids)
  else if String.eqb url (PubChem.cid_resturl "517180")
  then Some (Xml pubchem_record)
  else if String.eqb url (ChemSpiderOD.searchurl "aspirin")
  then Some (Xml chemspider_ids)
  else if String.eqb url (ChemSpiderOD.apiurl "2157")
  then Some (Xml chemspider_aspirin)
  else if String.eqb url (ChemSpiderOD.apiurl "10442445")
  then Some (Xml chemspider_aspirin_sodium)
  else if String.prefix "http://pubchem.ncbi.nlm.nih.gov/rest/pug/compound/name/" url
  then Some (Xml (no_ids "{http://pubchem.ncbi.nlm.nih.gov/pug_rest}IdentifierList"))
  else if String.prefix "http://www.chemspider.com/Search.asmx/" url
  then Some (Xml (no_ids (cs "ArrayOfInt")))
  else None.

(** The same remote side, except that its PubChem record for the compound
    has an unlabelled [PC-InfoData] node. *)
Definition net_unlabelled : Net := fun history url =>
  if String.eqb url (PubChem.cid_resturl "517180")
  then Some (Xml pubchem_record_unlabelled)
  else net history url.

(** A fresh process: nothing requested, nothing printed, no files. *)
Definition w0 : World := mkWorld [] "" ∅.

(** A process started where [out.txt] already exists. *)
Definition w_out : World := mkWorld [] "" {[ "out.txt" := File "kept" ]}.

(** What the two backends find for aspirin at [net]. *)
Definition pubchem_found : list Compound :=
  [ {| _imageUrl := Some ""; _formula := Some "";
       _smiles := Some "CC(=O)OC1=CC=CC=C1C(=O)O";
       _name := Some "2-acetyloxybenzoic acid";
       _csid := Some "517180"; _molWeight := Some "";
       _database := Some "PubChem" |} ].

Definition chemspider_found : list Compound :=
  [ {| _imageUrl := Some ""; _formula := Some "";
       _smiles := Some "CC(=O)Oc1ccccc1C(=O)O";
       _name := Some "Aspirin";
       _csid := Some "2157"; _molWeight := Some "180.1574";
       _database := Some "ChemSpider" |};
    {| _imageUrl := Some ""; _formula := Some "";
       _smiles := Some "CC(=O)Oc1ccccc1C(=O)[O-].[Na+]";
       _name := Some "Aspirin sodium";
       _csid := Some "10442445"; _molWeight := Some "202.1392";
       _database := Some "ChemSpider" |} ].

(** The requests each backend makes for aspirin. *)
Definition pubchem_asked : list string :=
  [ PubChem.search_resturl "aspirin"; PubChem.cid_resturl "517180" ].

Definition chemspider_asked : list string :=
  [ ChemSpiderOD.searchurl "aspirin";
    ChemSpiderOD.apiurl "2157"; ChemSpiderOD.apiurl "10442445" ].


(** [net], except that the second ChemSpider record cannot be fetched. *)
Definition net_flaky : Net := fun history url =>
  if String.eqb url (ChemSpiderOD.apiurl "10442445") then None
  else net history url.

(** [net], except that the last id PubChem sends has no text. *)
Definition pubchem_ids_textless : Element :=
  node "{http://pubchem.ncbi.nlm.nih.gov/pug_rest}IdentifierList"
    [ leaf "{http://pubchem.ncbi.nlm.nih.gov/pug_rest}CID" "2244";
      node "{http://pubchem.ncbi.nlm.nih.gov/pug_rest}CID" [] ].

Definition chemspider_ids_textless : Element :=
  node (cs "ArrayOfInt") [ leaf (cs "int") "2157"; node (cs "int") [] ].

Definition net_textless : Net := fun history url =>
  if String.eqb url (PubChem.search_resturl "aspirin")
  then Some (Xml pubchem_ids_textless)
  else if String.eqb url (ChemSpiderOD.searchurl "aspirin")
  then Some (Xml chemspider_ids_textless)
  else net history url.


(** A ChemSpider record with two names, the second one empty. *)
Definition chemspider_renamed : Element :=
  node (cs "ExtendedCompoundInfo")
    [ leaf (cs "CSID") "2157";
      leaf (cs "CommonName") "Aspirin";
      leaf (cs "SMILES") "CC(=O)Oc1ccccc1C(=O)O";
      node (cs "CommonName") [] ].

(** A PubChem record with two names and a node that has a label but no
    value. *)
Definition info_data_valueless (label : string) : Element :=
  node (pc "PC-InfoData")
    [ node (pc "PC-InfoData_urn")
        [ node (pc "PC-Urn") [ leaf (pc "PC-Urn_label") label ] ] ].

Definition pubchem_record_renamed : Element :=
  node (pc "PC-Compounds")
    [ node (pc "PC-Compound")
        [ node (pc "PC-Compound_props")
            [ info_data "IUPAC Name" "2-acetoxybenzoic acid";
              info_data "IUPAC Name" "2-acetyloxybenzoic acid";
              info_data_valueless "Fingerprint" ] ] ].

Definition net_renamed : Net := fun history url =>
  if String.eqb url (PubChem.cid_resturl "517180")
  then Some (Xml pubchem_record_renamed)
  else net history url.


End Sample.

(** Case analysis on the tag tests of [ChemSpiderOD.read_field]. *)
Ltac read_field_cases :=
  intros child compound Hkeep; unfold ChemSpiderOD.read_field;
  repeat match goal with
         | |- context [String.eqb ?a ?b] => destruct (String.eqb_spec a b)
         end;
  simpl; first [reflexivity | contradiction].

(** * Facts about computations *)

Section Computations.

Context {A B : Type}.

Lemma bind_returns (m : M A) (k : A -> M B) net w a w' :
  m net w = (Returns a, w') -> bind m k net w = k a net w'.
Proof. intros H. unfold bind. now rewrite H. Qed.

Lemma bind_raises (m : M A) (k : A -> M B) net w e w' :
  m net w = (Raises e, w') -> bind m k net w = (Raises e, w').
Proof. intros H. unfold bind. now rewrite H. Qed.

(** A computation that returned ran both halves of its [bind]. *)
Lemma bind_inv (m : M A) (k : A -> M B) net w b w' :
  bind m k net w = (Returns b, w') ->
  exists a w1, m net w = (Returns a, w1) /\ k a net w1 = (Returns b, w').
Proof.
  unfold bind. destruct (m net w) as [[a|e] w1]; intros H.
  - exists a, w1. split; [reflexivity | exact H].
  - discriminate H.
Qed.

End Computations.

Lemma urlopen_answered net w url b :
  net (requests w) url = Some b ->
  urlopen url net w = (Returns b, add_request url w).
Proof. intros H. unfold urlopen. now rewrite H. Qed.

Lemma urlopen_requests url net w :
  snd (urlopen url net w) = add_request url w.
Proof. unfold urlopen. now destruct (net (requests w) url). Qed.

(** ** Loops *)

Section Loops.

Context {A S : Type}.
Implicit Types (l : list A) (body : A -> S -> M (signal * S)).

(** A loop whose body only computes is a left fold. *)
Lemma for_in_pure (f : A -> S -> S) l s net w :
  for_in l (fun x s => ret (Normal, f x s)) s net w
  = (Returns (fold_left (fun s x => f x s) l s), w).
Proof.
  revert s. induction l as [|x l IH]; intros s; simpl; [reflexivity|].
  unfold bind at 1. simpl. apply IH.
Qed.

(** What every iteration keeps, the loop keeps. *)
Lemma for_in_inv (P : S -> Prop) body :
  (forall x s net w sg s' w',
      P s -> body x s net w = (Returns (sg, s'), w') -> P s') ->
  forall l s net w s' w',
    P s -> for_in l body s net w = (Returns s', w') -> P s'.
Proof.
  intros Hbody l. induction l as [|x l IH]; intros s net w s' w' Hs Hrun.
  - inversion Hrun; subst. exact Hs.
  - simpl in Hrun. apply bind_inv in Hrun as ([sg s1] & w1 & Hx & Hk).
    pose proof (Hbody _ _ _ _ _ _ _ Hs Hx) as Hs1.
    destruct sg; try (eapply IH; eassumption).
    inversion Hk; subst. exact Hs1.
Qed.

(** A loop whose body leaves the world alone leaves it alone. *)
Lemma for_in_same_world body :
  (forall x s net w, snd (body x s net w) = w) ->
  forall l s net w, snd (for_in l body s net w) = w.
Proof.
  intros Hbody l. induction l as [|x l IH]; intros s net w; simpl; [reflexivity|].
  unfold bind. specialize (Hbody x s net w).
  destruct (body x s net w) as [[[sg s1]|e] w1]; simpl in Hbody; subst w1.
  - destruct sg; simpl; auto.
  - reflexivity.
Qed.

End Loops.

(** * The coordinator *)

Section Coordinator.

Variable subclasses : list AbstractOnlineDatabase.

(** The loop of [ChemInfo.search], started with [acc] already collected,
    asks all the backends that are left, whatever [first] is. *)
Lemma search_loop_query_all first query odbs acc net w :
  for_in odbs
    (fun odb compounds =>
       found <- odb_search odb query ;;
       let compounds := compounds ++ found in
       if first && (0 <? length compounds)%nat
       then ret (Continue, compounds)
       else ret (Normal, compounds))
    acc net w
  = match query_all odbs query net w with
    | (Returns l, w') => (Returns (acc ++ l), w')
    | (Raises e, w') => (Raises e, w')
    end.
Proof.
  set (body := fun (odb : AbstractOnlineDatabase) (compounds : list Compound) => _).
  assert (Hbody : forall odb acc net w,
    body odb acc net w
    = match odb_search odb query net w with
      | (Returns found, w1) =>
          (Returns (if first && (0 <? length (acc ++ found))%nat
                    then Continue else Normal, acc ++ found), w1)
      | (Raises e, w1) => (Raises e, w1)
      end).
  { intros odb acc0 net0 w0. unfold body, bind.
    destruct (odb_search odb query net0 w0) as [[found|e] w1]; [|reflexivity].
    now destruct (first && (0 <? length (acc0 ++ found))%nat). }
  clearbody body.
  revert acc w. induction odbs as [|odb odbs IH]; intros acc w; simpl.
  - unfold ret. now rewrite app_nil_r.
  - unfold bind at 1 2. rewrite Hbody.
    destruct (odb_search odb query net w) as [[found|e] w1]; [|reflexivity].
    assert (Hnext : for_in odbs body (acc ++ found) net w1
      = match bind (query_all odbs query) (fun others => ret (found ++ others)) net w1 with
        | (Returns l, w') => (Returns (acc ++ l), w')
        | (Raises e, w') => (Raises e, w')
        end).
    { rewrite IH. unfold bind.
      destruct (query_all odbs query net w1) as [[l|e] w2]; simpl;
        [now rewrite app_assoc | reflexivity]. }
    now destruct (first && (0 <? length (acc ++ found))%nat).
Qed.

Lemma search_query_all first query net w :
  ChemInfo.search subclasses query first net w = query_all subclasses query net w.
Proof.
  unfold ChemInfo.search, ChemInfo.getOnlineDatabases.
  rewrite search_loop_query_all.
  now destruct (query_all subclasses query net w) as [[l|e] w'].
Qed.

Lemma answers_query_all query net w founds w' :
  answers net query subclasses w founds w' ->
  query_all subclasses query net w = (Returns (concat founds), w').
Proof.
  induction 1 as [w|odb odbs w found w1 founds w2 Hodb _ IH]; simpl.
  - reflexivity.
  - rewrite (bind_returns _ _ _ _ _ _ Hodb).
    now rewrite (bind_returns _ _ _ _ _ _ IH).
Qed.

End Coordinator.

(** * The PubChem backend *)

(** Reading one [PC-InfoData] node touches neither the network, the
    output nor the files. *)
Lemma read_prop_same_world child compound net w :
  snd (PubChem.read_prop child compound net w) = w.
Proof.
  unfold PubChem.read_prop, bind, dot_text, ret, raise.
  destruct (List.find _ (iter child)) as [label|]; [|reflexivity].
  destruct (List.find _ (iter child)) as [value|];
    destruct (pystr_eqb (text label) "IUPAC Name");
    destruct (pystr_eqb (text label) "SMILES"); reflexivity.
Qed.

(** It writes the name and the SMILES string only. *)
Lemma read_prop_keeps child compound net w sg compound' w' :
  PubChem.read_prop child compound net w = (Returns (sg, compound'), w') ->
  _database compound' = _database compound /\ _csid compound' = _csid compound
  /\ _molWeight compound' = _molWeight compound.
Proof.
  unfold PubChem.read_prop, bind, dot_text, ret, raise.
  destruct (List.find _ (iter child)) as [label|]; [|discriminate].
  destruct (List.find _ (iter child)) as [value|];
    destruct (pystr_eqb (text label) "IUPAC Name");
    destruct (pystr_eqb (text label) "SMILES");
    intros H; inversion H; subst; auto.
Qed.

(** The detail step asks for one URL, that of the id, whether or not a
    record comes of it. *)
Lemma getCompoundFromCID_requests cid net w :
  snd (PubChem.getCompoundFromCID (Some cid) net w)
  = add_request (PubChem.cid_resturl cid) w.
Proof.
  unfold PubChem.getCompoundFromCID. simpl assert_str.
  unfold bind at 1. unfold ret at 1.
  unfold bind at 1. unfold urlopen.
  destruct (net (requests w) (PubChem.cid_resturl cid)) as [[|root]|];
    try reflexivity.
  unfold bind. simpl. apply for_in_same_world. apply read_prop_same_world.
Qed.

(** A record the detail step returns was built for a [str] id, carries
    that id and the name of the backend. *)
Lemma getCompoundFromCID_inv v net w compound w' :
  PubChem.getCompoundFromCID v net w = (Returns compound, w') ->
  exists cid, v = Some cid
    /\ _database compound = Some PubChem.name
    /\ _csid compound = Some cid
    /\ w' = add_request (PubChem.cid_resturl cid) w.
Proof.
  intros H. destruct v as [cid|]; [|discriminate H].
  exists cid. split; [reflexivity|].
  pose proof (getCompoundFromCID_requests cid net w) as Hw.
  rewrite H in Hw. simpl in Hw.
  unfold PubChem.getCompoundFromCID in H. simpl assert_str in H.
  apply bind_inv in H as (cid' & w1 & Hcid & H). inversion Hcid; subst cid' w1.
  apply bind_inv in H as (response & w1 & _ & H).
  apply bind_inv in H as (root & w2 & _ & H).
  apply (for_in_inv
           (fun c => _database c = Some PubChem.name /\ _csid c = Some cid)) in H.
  - tauto.
  - intros x s net0 w0 sg s' w0' [Hd Hc] Hx.
    apply read_prop_keeps in Hx as (Hd' & Hc' & _). now rewrite Hd', Hc'.
  - split; reflexivity.
Qed.

Lemma existsb_find {A} (f : A -> bool) (l : list A) :
  existsb f l = true -> exists x, List.find f l = Some x.
Proof.
  induction l as [|a l IH]; simpl; [discriminate|].
  destruct (f a); [eauto | exact IH].
Qed.

(** Under a labelled node the loop body always reaches its end. *)
Lemma read_prop_labelled child compound net w :
  labelled child = true ->
  exists compound',
    PubChem.read_prop child compound net w = (Returns (Normal, compound'), w).
Proof.
  unfold labelled. intros H. apply andb_prop in H as [Hl Hv].
  apply existsb_find in Hl as [label Hl]. apply existsb_find in Hv as [value Hv].
  unfold PubChem.read_prop. rewrite Hl, Hv. unfold bind, dot_text, ret.
  destruct (pystr_eqb (text label) "IUPAC Name");
    destruct (pystr_eqb (text label) "SMILES"); eauto.
Qed.

(** So the detail step returns a record whenever it is answered with a
    well labelled document. *)
Lemma getCompoundFromCID_well_labelled cid net w root :
  net (requests w) (PubChem.cid_resturl cid) = Some (Xml root) ->
  well_labelled root = true ->
  exists compound,
    PubChem.getCompoundFromCID (Some cid) net w
    = (Returns compound, add_request (PubChem.cid_resturl cid) w).
Proof.
  intros Hnet Hwell. unfold PubChem.getCompoundFromCID. simpl assert_str.
  unfold bind at 1. unfold ret at 1.
  rewrite (bind_returns _ _ _ _ _ _ (urlopen_answered _ _ _ _ Hnet)).
  unfold bind at 1. simpl ET_parse_getroot. unfold ret at 1.
  unfold well_labelled in Hwell. revert Hwell.
  generalize (CompoundClass.set_csid (Some cid)
                (CompoundClass.set_database (Some PubChem.name) CompoundClass.init)).
  generalize (add_request (PubChem.cid_resturl cid) w).
  induction (List.filter _ (iter root)) as [|child props IH];
    intros w1 compound Hwell; simpl.
  - eexists. reflexivity.
  - simpl in Hwell. apply andb_prop in Hwell as [Hchild Hprops].
    destruct (read_prop_labelled child compound net w1 Hchild) as [compound' Hrun].
    rewrite (bind_returns _ _ _ _ _ _ Hrun). now apply IH.
Qed.

(** The search loop of PubChem, from the answer to the search request on. *)
Lemma PubChem_search_answered query net w root :
  net (requests w) (PubChem.search_resturl query) = Some (Xml root) ->
  PubChem.search query net w
  = for_in (rev (children root))
      (fun child compounds =>
         compound <- PubChem.getCompoundFromCID (text child) ;;
         ret (Break, compounds ++ [compound]))
      [] net (add_request (PubChem.search_resturl query) w).
Proof.
  intros Hnet. unfold PubChem.search.
  rewrite (bind_returns _ _ _ _ _ _ (urlopen_answered _ _ _ _ Hnet)).
  reflexivity.
Qed.

(** * The ChemSpider backend *)

Lemma read_field_database child compound :
  _database (ChemSpiderOD.read_field child compound) = _database compound.
Proof.
  unfold ChemSpiderOD.read_field.
  repeat match goal with |- context [if ?b then _ else _] => destruct b end;
    reflexivity.
Qed.

(** Given a [str] id and an XML answer, the detail step of ChemSpider
    always returns a record: that of [chemspider_record]. *)
Lemma getCompoundFromCSID_answered csid net w root :
  net (requests w) (ChemSpiderOD.apiurl csid) = Some (Xml root) ->
  ChemSpiderOD.getCompoundFromCSID (Some csid) net w
  = (Returns (chemspider_record root), add_request (ChemSpiderOD.apiurl csid) w).
Proof.
  intros Hnet. unfold ChemSpiderOD.getCompoundFromCSID. simpl assert_str.
  unfold bind at 1. unfold ret at 1.
  rewrite (bind_returns _ _ _ _ _ _ (urlopen_answered _ _ _ _ Hnet)).
  unfold bind, ET_parse_getroot, ret at 1.
  apply for_in_pure.
Qed.

Lemma getCompoundFromCSID_database v net w compound w' :
  ChemSpiderOD.getCompoundFromCSID v net w = (Returns compound, w') ->
  _database compound = Some ChemSpiderOD.name.
Proof.
  intros H. destruct v as [csid|]; [|discriminate H].
  unfold ChemSpiderOD.getCompoundFromCSID in H. simpl assert_str in H.
  apply bind_inv in H as (csid' & w1 & Hcsid & H). inversion Hcsid; subst csid' w1.
  apply bind_inv in H as (response & w1 & _ & H).
  apply bind_inv in H as (root & w2 & _ & H).
  rewrite for_in_pure in H. inversion H; subst. clear H.
  generalize (CompoundClass.set_database (Some ChemSpiderOD.name) CompoundClass.init)
    (eq_refl : _database (CompoundClass.set_database (Some ChemSpiderOD.name)
                            CompoundClass.init) = Some ChemSpiderOD.name).
  induction (children root) as [|child kids IH]; intros c Hc; simpl.
  - exact Hc.
  - apply IH. now rewrite read_field_database.
Qed.

Lemma ChemSpiderOD_search_answered query net w root :
  net (requests w) (ChemSpiderOD.searchurl query) = Some (Xml root) ->
  ChemSpiderOD.search query net w
  = for_in (children root)
      (fun child compounds =>
         compound <- ChemSpiderOD.getCompoundFromCSID (text child) ;;
         ret (Normal, compounds ++ [compound]))
      [] net (add_request (ChemSpiderOD.searchurl query) w).
Proof.
  intros Hnet. unfold ChemSpiderOD.search.
  rewrite (bind_returns _ _ _ _ _ _ (urlopen_answered _ _ _ _ Hnet)).
  reflexivity.
Qed.

Lemma add_requests_cons url urls w :
  add_requests urls (add_request url w) = add_requests (url :: urls) w.
Proof. unfold add_requests, add_request. simpl. now rewrite <- app_assoc. Qed.

Lemma add_requests_nil w : add_requests [] w = w.
Proof. destruct w. unfold add_requests. simpl. now rewrite app_nil_r. Qed.

(** The search loop of ChemSpider over the id elements [kids]: when the
    [i]-th detail request, made after the [i] before it, is answered with
    the [i]-th of [details], the loop adds the records of [details]. *)
Lemma ChemSpiderOD_loop net kids :
  forall ids details acc w,
    map text kids = map Some ids ->
    length details = length ids ->
    (forall i id d,
        ids !! i = Some id -> details !! i = Some d ->
        net (requests w ++ map ChemSpiderOD.apiurl (take i ids)) (ChemSpiderOD.apiurl id)
        = Some (Xml d)) ->
    for_in kids
      (fun child compounds =>
         compound <- ChemSpiderOD.getCompoundFromCSID (text child) ;;
         ret (Normal, compounds ++ [compound]))
      acc net w
    = (Returns (acc ++ map chemspider_record details),
       add_requests (map ChemSpiderOD.apiurl ids) w).
Proof.
  induction kids as [|kid kids IH]; intros ids details acc w Hids Hlen Hnet.
  - destruct ids; [|discriminate Hids]. destruct details; [|discriminate Hlen].
    simpl. unfold ret. now rewrite app_nil_r, add_requests_nil.
  - destruct ids as [|id ids]; [discriminate Hids|].
    destruct details as [|d details]; [discriminate Hlen|].
    simpl in Hids. injection Hids as Hkid Hids. simpl in Hlen. injection Hlen as Hlen.
    simpl for_in. rewrite Hkid.
    assert (H0 : net (requests w) (ChemSpiderOD.apiurl id) = Some (Xml d)).
    { specialize (Hnet 0 id d eq_refl eq_refl). simpl in Hnet.
      now rewrite app_nil_r in Hnet. }
    unfold bind at 1 2.
    rewrite (getCompoundFromCSID_answered _ _ _ _ H0). unfold ret at 1.
    rewrite (IH ids details); try assumption.
    + rewrite add_requests_cons. simpl. now rewrite <- app_assoc.
    + intros i id' d' Hi Hd. specialize (Hnet (S i) id' d' Hi Hd).
      simpl in Hnet. simpl. now rewrite <- app_assoc.
Qed.

(** * Settled claims *)

(** C1. Whatever the registered backends are, if the search of backend i
    returns a list of k_i records when its turn comes, [ChemInfo.search]
    with [first] at its default [False] returns the concatenation of these
    lists in the order of the backends, of length the sum of the k_i, and
    leaves the world the last backend left. *)
Theorem ChemInfo_search_concatenates
  (subclasses : list AbstractOnlineDatabase) (query : string)
  (net : Net) (w w' : World) (founds : list (list Compound)) :
  answers net query subclasses w founds w' ->
  ChemInfo.search subclasses query false net w = (Returns (concat founds), w')
  /\ length (concat founds) = list_sum (map length founds).
Proof.
  intros Hall. split.
  - rewrite search_query_all. now apply answers_query_all.
  - apply length_concat.
Qed.

(** C2. [ChemInfo.search(query, True)] does what [ChemInfo.search(query,
    False)] does, outcome and world alike, and both ask every registered
    backend in turn: the flag never ends the loop early. *)
Theorem ChemInfo_search_first_is_ignored
  (subclasses : list AbstractOnlineDatabase) (query : string)
  (net : Net) (w : World) :
  ChemInfo.search subclasses query true net w
  = ChemInfo.search subclasses query false net w
  /\ ChemInfo.search subclasses query true net w
     = query_all subclasses query net w.
Proof.
  split; [|apply search_query_all].
  now rewrite !search_query_all.
Qed.

(** C3. When the answer to the search request has the children
    [ids ++ [c]] and the last one, [c], has the text [cn], [PubChem.search]
    makes exactly one more request, the detail request for [cn], and its
    outcome is that of the detail step for [cn]: the one-element list of
    the record it built, or the exception it raised. When that request is
    answered with a well labelled document, a record is built: the search
    returns a list of one record, which carries [cn]. *)
Theorem PubChem_search_fetches_last_id
  (query : string) (net : Net) (w : World) (root : Element)
  (ids : list Element) (c : Element) (cn : string) :
  net (requests w) (PubChem.search_resturl query) = Some (Xml root) ->
  children root = ids ++ [c] ->
  text c = Some cn ->
  requests (snd (PubChem.search query net w))
  = requests w ++ [PubChem.search_resturl query; PubChem.cid_resturl cn]
  /\ PubChem.search query net w
     = match PubChem.getCompoundFromCID (Some cn) net
               (add_request (PubChem.search_resturl query) w) with
       | (Returns compound, w') => (Returns [compound], w')
       | (Raises e, w') => (Raises e, w')
       end
  /\ (forall detail,
        net (requests w ++ [PubChem.search_resturl query]) (PubChem.cid_resturl cn)
        = Some (Xml detail) ->
        well_labelled detail = true ->
        exists compound,
          PubChem.search query net w
          = (Returns [compound],
             add_requests [PubChem.search_resturl query; PubChem.cid_resturl cn] w)
          /\ _csid compound = Some cn).
Proof.
  intros Hnet Hkids Hcn.
  assert (Hrun : PubChem.search query net w
     = match PubChem.getCompoundFromCID (Some cn) net
               (add_request (PubChem.search_resturl query) w) with
       | (Returns compound, w') => (Returns [compound], w')
       | (Raises e, w') => (Raises e, w')
       end).
  { rewrite (PubChem_search_answered _ _ _ _ Hnet), Hkids, rev_app_distr.
    simpl. rewrite Hcn. unfold bind.
    now destruct (PubChem.getCompoundFromCID (Some cn) net _) as [[compound|e] w1]. }
  split; [|split; [exact Hrun|]].
  - rewrite Hrun.
    pose proof (getCompoundFromCID_requests cn net
                  (add_request (PubChem.search_resturl query) w)) as Hw.
    destruct (PubChem.getCompoundFromCID (Some cn) net _) as [[compound|e] w1];
      simpl in Hw; subst w1; simpl; now rewrite <- app_assoc.
  - intros detail Hdetail Hwell.
    destruct (getCompoundFromCID_well_labelled cn net
                (add_request (PubChem.search_resturl query) w) detail Hdetail Hwell)
      as [compound Hcid].
    exists compound. rewrite Hrun, Hcid. split.
    + unfold add_requests, add_request. simpl. now rewrite <- app_assoc.
    + apply getCompoundFromCID_inv in Hcid as (cid & Heq & _ & Hcsid & _).
      now inversion Heq; subst.
Qed.

(** C4. When the answer to the search request has n children with the
    texts [ids], and the i-th detail request is answered with the XML
    document [details_i], [ChemSpiderOD.search] requests the search URL and
    then the detail URL of every id, in order, and returns n records, the
    i-th built from the answer for the i-th id. *)
Theorem ChemSpiderOD_search_fetches_every_id
  (query : string) (net : Net) (w : World) (root : Element)
  (ids : list string) (details : list Element) :
  net (requests w) (ChemSpiderOD.searchurl query) = Some (Xml root) ->
  map text (children root) = map Some ids ->
  length details = length ids ->
  (forall i id d,
      ids !! i = Some id -> details !! i = Some d ->
      net (requests w ++ ChemSpiderOD.searchurl query
                         :: map ChemSpiderOD.apiurl (take i ids))
          (ChemSpiderOD.apiurl id)
      = Some (Xml d)) ->
  ChemSpiderOD.search query net w
  = (Returns (map chemspider_record details),
     add_requests (ChemSpiderOD.searchurl query :: map ChemSpiderOD.apiurl ids) w)
  /\ length (map chemspider_record details) = length ids.
Proof.
  intros Hnet Hids Hlen Hdetails. split; [|now rewrite length_map].
  rewrite (ChemSpiderOD_search_answered _ _ _ _ Hnet).
  rewrite (ChemSpiderOD_loop net (children root) ids details); try assumption.
  - now rewrite add_requests_cons.
  - intros i id d Hi Hd. simpl. rewrite <- app_assoc. simpl. now apply Hdetails.
Qed.

(** C5. When the answer to the search request has no children, the search
    of either backend returns the empty list and has made the search
    request only. *)
Theorem search_without_ids_is_empty (query : string) (net : Net) (w : World) :
  (forall root,
      net (requests w) (PubChem.search_resturl query) = Some (Xml root) ->
      children root = [] ->
      PubChem.search query net w
      = (Returns [], add_request (PubChem.search_resturl query) w))
  /\ (forall root,
      net (requests w) (ChemSpiderOD.searchurl query) = Some (Xml root) ->
      children root = [] ->
      ChemSpiderOD.search query net w
      = (Returns [], add_request (ChemSpiderOD.searchurl query) w)).
Proof.
  split; intros root Hnet Hkids.
  - rewrite (PubChem_search_answered _ _ _ _ Hnet), Hkids. reflexivity.
  - rewrite (ChemSpiderOD_search_answered _ _ _ _ Hnet), Hkids. reflexivity.
Qed.

(** C10. Every record in a list [PubChem.search] returns has the database
    ["PubChem"] and as its csid the id of the detail request the search
    made; every record in a list [ChemSpiderOD.search] returns has the
    database ["ChemSpider"]. *)
Theorem search_records_carry_backend_name (query : string) (net : Net) (w : World) :
  (forall l w',
      PubChem.search query net w = (Returns l, w') ->
      Forall (fun compound =>
                _database compound = Some "PubChem"
                /\ exists cid,
                    _csid compound = Some cid
                    /\ requests w'
                       = requests w ++ [PubChem.search_resturl query;
                                        PubChem.cid_resturl cid]) l)
  /\ (forall l w',
      ChemSpiderOD.search query net w = (Returns l, w') ->
      Forall (fun compound => _database compound = Some "ChemSpider") l).
Proof.
  split; intros l w' Hrun.
  - unfold PubChem.search in Hrun.
    apply bind_inv in Hrun as (response & w1 & Hopen & Hrun).
    pose proof (urlopen_requests (PubChem.search_resturl query) net w) as Hw1.
    rewrite Hopen in Hw1. simpl in Hw1. subst w1.
    apply bind_inv in Hrun as (root & w2 & Hroot & Hrun).
    assert (w2 = add_request (PubChem.search_resturl query) w) as ->.
    { destruct response; inversion Hroot; reflexivity. }
    destruct (rev (children root)) as [|c rest].
    + inversion Hrun; subst. constructor.
    + simpl in Hrun. apply bind_inv in Hrun as ([sg found] & w3 & Hbody & Hrun).
      apply bind_inv in Hbody as (compound & w4 & Hcid & Hret).
      inversion Hret; subst sg found w4. inversion Hrun; subst l w3.
      apply getCompoundFromCID_inv in Hcid as (cid & _ & Hdb & Hcsid & ->).
      constructor; [|constructor]. split; [exact Hdb|].
      exists cid. split; [exact Hcsid|]. simpl. now rewrite <- app_assoc.
  - unfold ChemSpiderOD.search in Hrun.
    apply bind_inv in Hrun as (response & w1 & _ & Hrun).
    apply bind_inv in Hrun as (root & w2 & _ & Hrun).
    apply (for_in_inv
             (Forall (fun compound => _database compound = Some "ChemSpider")))
      in Hrun; [exact Hrun | | constructor].
    intros child acc net0 w0 sg acc' w0' Hacc Hbody.
    apply bind_inv in Hbody as (compound & w3 & Hcsid & Hret).
    inversion Hret; subst. apply Forall_app. split; [exact Hacc|].
    constructor; [|constructor].
    now apply getCompoundFromCSID_database in Hcsid.
Qed.

(** C9. When there is something at the output path and the force flag is
    not set, the output-writing step returns normally having printed the
    refusal and nothing else: the files are as they were, whatever the
    records are, and no request is made. *)
Theorem write_output_refuses_existing
  (path : string) (compounds : option (list Compound)) (net : Net) (w : World)
  (node : fsnode) :
  files w !! path = Some node ->
  write_output (Some path) false compounds net w
  = (Returns tt,
     add_stdout ("The file already exist. I won't write any data." +:+ NL) w)
  /\ files (snd (write_output (Some path) false compounds net w)) = files w.
Proof.
  intros Hthere.
  assert (Hrun : write_output (Some path) false compounds net w
    = (Returns tt,
       add_stdout ("The file already exist. I won't write any data." +:+ NL) w)).
  { unfold write_output, bind, os_path_exists. rewrite Hthere.
    rewrite bool_decide_eq_true_2 by (eexists; reflexivity). reflexivity. }
  split; [exact Hrun|]. now rewrite Hrun.
Qed.

(** * Where the code departs from what is said of it *)

(** ** Detail documents that lack the expected fields *)

(** A [PC-InfoData] node with no [PC-Urn_label] under it stops the PubChem
    detail step: [label] is still [None] when [label.text] is read. *)
Lemma read_prop_unlabelled child compound net w :
  List.find (fun item => String.eqb (tag item) PubChem.tag_Urn_label) (iter child)
  = None ->
  PubChem.read_prop child compound net w = (Raises (AttributeError "text"), w).
Proof. intros H. unfold PubChem.read_prop. rewrite H. reflexivity. Qed.

(** The ChemSpider detail step has no such reading. A field that no
    element of the document is for keeps the empty string it started with. *)
Lemma read_fields_keep (field : Compound -> pystr) (keeps : Element -> Prop) :
  (forall child compound,
      keeps child -> field (ChemSpiderOD.read_field child compound) = field compound) ->
  forall kids compound,
    Forall keeps kids ->
    field (fold_left (fun compound child => ChemSpiderOD.read_field child compound)
             kids compound)
    = field compound.
Proof.
  intros Hstep kids. induction kids as [|child kids IH]; intros compound Hkids.
  - reflexivity.
  - inversion Hkids; subst. simpl. rewrite IH by assumption. now apply Hstep.
Qed.

Lemma chemspider_record_defaults root :
  let absent local :=
    Forall (fun child => tag child <> "{http://www.chemspider.com/}" +:+ local)
      (children root) in
  _imageUrl (chemspider_record root) = Some ""
  /\ _formula (chemspider_record root) = Some ""
  /\ (absent "SMILES" -> _smiles (chemspider_record root) = Some "")
  /\ (absent "CSID" -> _csid (chemspider_record root) = Some "")
  /\ (absent "MolecularWeight" -> _molWeight (chemspider_record root) = Some "")
  /\ (absent "CommonName" -> _name (chemspider_record root) = Some "").
Proof.
  intros absent. subst absent. unfold chemspider_record.
  repeat split.
  - rewrite (read_fields_keep _imageUrl (fun _ => True));
      [reflexivity | read_field_cases | now apply Forall_forall].
  - rewrite (read_fields_keep _formula (fun _ => True));
      [reflexivity | read_field_cases | now apply Forall_forall].
  - intros Habs.
    rewrite (read_fields_keep _smiles
               (fun child => tag child <> "{http://www.chemspider.com/}SMILES"));
      [reflexivity | read_field_cases | exact Habs].
  - intros Habs.
    rewrite (read_fields_keep _csid
               (fun child => tag child <> "{http://www.chemspider.com/}CSID"));
      [reflexivity | read_field_cases | exact Habs].
  - intros Habs.
    rewrite (read_fields_keep _molWeight
               (fun child => tag child <> "{http://www.chemspider.com/}MolecularWeight"));
      [reflexivity | read_field_cases | exact Habs].
  - intros Habs.
    rewrite (read_fields_keep _name
               (fun child => tag child <> "{http://www.chemspider.com/}CommonName"));
      [reflexivity | read_field_cases | exact Habs].
Qed.

(** C6 (fails for PubChem). At a remote side whose PubChem record has a
    [PC-InfoData] node without a [PC-Urn_label], the detail step raises
    [AttributeError] where a record with default fields is expected, and
    the whole search is lost with it. *)
Theorem getCompoundFromCID_fails_on_unlabelled_node :
  PubChem.getCompoundFromCID (Some "517180") Sample.net_unlabelled Sample.w0
  = (Raises (AttributeError "text"),
     add_request (PubChem.cid_resturl "517180") Sample.w0)
  /\ PubChem.search "aspirin" Sample.net_unlabelled Sample.w0
     = (Raises (AttributeError "text"),
        add_requests Sample.pubchem_asked Sample.w0).
Proof. split; vm_compute; reflexivity. Qed.

(** ** A name without results *)

(** When the coordinator returns no record for [name], the body of the
    loop over the names raises [NameError]: the line it is about to print
    reads [odb], which is a local of [ChemInfo.search], not of [main]. *)
Lemma search_name_without_records subclasses name compounds net w w' :
  ChemInfo.search subclasses name true net w = (Returns [], w') ->
  search_name subclasses name compounds net w = (Raises (NameError "odb"), w').
Proof.
  intros Hsearch. unfold search_name.
  rewrite (bind_returns _ _ _ _ _ _ Hsearch). reflexivity.
Qed.

(** C7 (fails). Asked for [xyz,aspirin] at a remote side that has no id
    for [xyz], the program ends with [NameError] after the two search
    requests for [xyz]: nothing is printed, and aspirin is never asked
    for. *)
Theorem main_fails_on_name_without_records :
  main registered (Parsed [("-n", "xyz,aspirin")] []) Sample.net Sample.w0
  = (Raises (NameError "odb"),
     add_requests [PubChem.search_resturl "xyz"; ChemSpiderOD.searchurl "xyz"]
       Sample.w0)
  /\ stdout (snd (main registered (Parsed [("-n", "xyz,aspirin")] [])
                    Sample.net Sample.w0)) = "".
Proof. split; vm_compute; reflexivity. Qed.

(** ** The search URLs *)

(** The first request of [PubChem.search] is for the URL with the query
    put in as it is. *)
Lemma PubChem_search_first_request query net w :
  exists rest,
    requests (snd (PubChem.search query net w))
    = requests w ++ PubChem.search_resturl query :: rest.
Proof.
  unfold PubChem.search, bind at 1, urlopen.
  destruct (net (requests w) (PubChem.search_resturl query)) as [[|root]|];
    try (exists []; reflexivity).
  unfold bind at 1. simpl ET_parse_getroot. unfold ret at 1.
  destruct (rev (children root)) as [|c rest]; [exists []; reflexivity|].
  simpl for_in. unfold bind at 1 2.
  destruct (text c) as [cid|]; [|exists []; reflexivity].
  pose proof (getCompoundFromCID_requests cid net
                (add_request (PubChem.search_resturl query) w)) as Hw.
  exists [PubChem.cid_resturl cid].
  destruct (PubChem.getCompoundFromCID (Some cid) net _) as [[compound|e] w1];
    simpl in Hw; subst w1; simpl; now rewrite <- app_assoc.
Qed.

(** C8 (fails for PubChem). For the query [acetic acid], ChemSpider is
    asked with the query percent-encoded, PubChem with the query as it is,
    blank included. *)
Theorem PubChem_search_url_is_not_quoted :
  urllib_parse.quote "acetic acid" = "acetic%20acid"
  /\ ChemSpiderOD.searchurl "acetic acid"
     = "http://www.chemspider.com/Search.asmx/SimpleSearch?query=acetic%20acid&token="
  /\ PubChem.search_resturl "acetic acid"
     = "http://pubchem.ncbi.nlm.nih.gov/rest/pug/compound/name/acetic acid/cids/XML"
  /\ forall net w,
      requests (snd (PubChem.search "acetic acid" net w)) !! length (requests w)
      = Some "http://pubchem.ncbi.nlm.nih.gov/rest/pug/compound/name/acetic acid/cids/XML".
Proof.
  repeat split; try reflexivity.
  intros net w.
  destruct (PubChem_search_first_request "acetic acid" net w) as [rest ->].
  rewrite lookup_app_r by lia. now rewrite Nat.sub_diag.
Qed.

(** * Runs at the sample remote side *)

Example quote_keeps_safe_bytes :
  urllib_parse.quote "2-acetyloxybenzoic_acid/v1.0~" = "2-acetyloxybenzoic_acid/v1.0~".
Proof. reflexivity. Qed.

Example quote_encodes_the_rest :
  urllib_parse.quote "a b&c=d?" = "a%20b%26c%3Dd%3F".
Proof. reflexivity. Qed.

Example split_names : split "," "aspirin,,caffeine" = ["aspirin"; ""; "caffeine"].
Proof. reflexivity. Qed.

Example split_empty : split "," "" = [""].
Proof. reflexivity. Qed.

(** With [first=True] and a hit at PubChem, ChemSpider is asked all the
    same. *)
Example search_first_asks_both :
  ChemInfo.search registered "aspirin" true Sample.net Sample.w0
  = (Returns (Sample.pubchem_found ++ Sample.chemspider_found),
     add_requests (Sample.pubchem_asked ++ Sample.chemspider_asked) Sample.w0).
Proof. vm_compute. reflexivity. Qed.

(** A whole run that is asked to write where a file is: the file stays,
    the refusal closes the output. With [-f] the file is rewritten. *)
Example main_keeps_existing_file :
  let run := main registered (Parsed [("-n", "aspirin"); ("-o", "out.txt")] [])
               Sample.net Sample.w_out in
  fst run = Returns tt
  /\ files (snd run) = files Sample.w_out
  /\ String.prefix
       (String.rev ("The file already exist. I won't write any data." +:+ NL))
       (String.rev (stdout (snd run))) = true.
Proof. vm_compute. repeat split; reflexivity. Qed.

Example main_overwrites_when_forced :
  let run := main registered
               (Parsed [("-n", "aspirin"); ("-f", ""); ("-o", "out.txt")] [])
               Sample.net Sample.w_out in
  fst run = Returns tt
  /\ exists contents,
      files (snd run) !! "out.txt" = Some (File contents)
      /\ String.prefix ("---------" +:+ NL +:+ "Database: PubChem" +:+ NL) contents
         = true.
Proof. vm_compute. split; [reflexivity|]. eexists. split; reflexivity. Qed.

Example main_lists_databases :
  main registered (Parsed [("-l", "")] []) Sample.net Sample.w0
  = (Raises (SystemExit 0),
     add_stdout ("List of available Online Database Modules: PubChem,ChemSpider" +:+ NL)
       Sample.w0).
Proof. vm_compute. reflexivity. Qed.

Lemma ChemInfo_search_concatenates_witness :
  answers Sample.net "aspirin" registered Sample.w0
    [Sample.pubchem_found; Sample.chemspider_found]
    (add_requests (Sample.pubchem_asked ++ Sample.chemspider_asked) Sample.w0)
  /\ ChemInfo.search registered "aspirin" false Sample.net Sample.w0
     = (Returns (Sample.pubchem_found ++ Sample.chemspider_found ++ []),
        add_requests (Sample.pubchem_asked ++ Sample.chemspider_asked) Sample.w0)
  /\ length (Sample.pubchem_found ++ Sample.chemspider_found ++ []) = 3.
Proof.
  assert (Hall : answers Sample.net "aspirin" registered Sample.w0
            [Sample.pubchem_found; Sample.chemspider_found]
            (add_requests (Sample.pubchem_asked ++ Sample.chemspider_asked) Sample.w0)).
  { apply answers_cons with (w1 := add_requests Sample.pubchem_asked Sample.w0);
      [vm_compute; reflexivity|].
    apply answers_cons
      with (w1 := add_requests (Sample.pubchem_asked ++ Sample.chemspider_asked) Sample.w0);
      [vm_compute; reflexivity|].
    apply answers_nil. }
  split; [exact Hall|].
  exact (ChemInfo_search_concatenates registered "aspirin" Sample.net Sample.w0 _ _ Hall).
Defined.

Lemma PubChem_search_fetches_last_id_witness :
  requests (snd (PubChem.search "aspirin" Sample.net Sample.w0))
  = Sample.pubchem_asked
  /\ exists compound,
      PubChem.search "aspirin" Sample.net Sample.w0
      = (Returns [compound], add_requests Sample.pubchem_asked Sample.w0)
      /\ _csid compound = Some "517180".
Proof.
  destruct (PubChem_search_fetches_last_id "aspirin" Sample.net Sample.w0
              Sample.pubchem_ids
              [Sample.leaf "{http://pubchem.ncbi.nlm.nih.gov/pug_rest}CID" "2244"]
              (Sample.leaf "{http://pubchem.ncbi.nlm.nih.gov/pug_rest}CID" "517180")
              "517180" eq_refl eq_refl eq_refl)
    as (Hasked & _ & Hreturns).
  split; [exact Hasked|].
  apply (Hreturns Sample.pubchem_record); reflexivity.
Defined.

Lemma ChemSpiderOD_search_fetches_every_id_witness :
  ChemSpiderOD.search "aspirin" Sample.net Sample.w0
  = (Returns (map chemspider_record
                [Sample.chemspider_aspirin; Sample.chemspider_aspirin_sodium]),
     add_requests Sample.chemspider_asked Sample.w0)
  /\ length (map chemspider_record
               [Sample.chemspider_aspirin; Sample.chemspider_aspirin_sodium]) = 2.
Proof.
  apply (ChemSpiderOD_search_fetches_every_id "aspirin" Sample.net Sample.w0
           Sample.chemspider_ids ["2157"; "10442445"]
           [Sample.chemspider_aspirin; Sample.chemspider_aspirin_sodium]);
    try reflexivity.
  intros [|[|i]] id d Hid Hd; simpl in Hid, Hd; try discriminate;
    inversion Hid; inversion Hd; subst; reflexivity.
Defined.

Lemma search_without_ids_is_empty_witness :
  PubChem.search "xyz" Sample.net Sample.w0
  = (Returns [], add_request (PubChem.search_resturl "xyz") Sample.w0)
  /\ ChemSpiderOD.search "xyz" Sample.net Sample.w0
     = (Returns [], add_request (ChemSpiderOD.searchurl "xyz") Sample.w0).
Proof.
  destruct (search_without_ids_is_empty "xyz" Sample.net Sample.w0) as [Hpub Hcs].
  split.
  - apply (Hpub (Sample.no_ids "{http://pubchem.ncbi.nlm.nih.gov/pug_rest}IdentifierList"));
      reflexivity.
  - apply (Hcs (Sample.no_ids (Sample.cs "ArrayOfInt"))); reflexivity.
Defined.

Lemma search_records_carry_backend_name_witness :
  Forall (fun compound =>
            _database compound = Some "PubChem"
            /\ exists cid,
                _csid compound = Some cid
                /\ requests (add_requests Sample.pubchem_asked Sample.w0)
                   = requests Sample.w0 ++ [PubChem.search_resturl "aspirin";
                                            PubChem.cid_resturl cid])
    Sample.pubchem_found
  /\ Forall (fun compound => _database compound = Some "ChemSpider")
       Sample.chemspider_found.
Proof.
  destruct (search_records_carry_backend_name "aspirin" Sample.net Sample.w0)
    as [Hpub Hcs].
  split.
  - apply Hpub. vm_compute. reflexivity.
  - apply (Hcs _ (add_requests Sample.chemspider_asked Sample.w0)).
    vm_compute. reflexivity.
Defined.

Lemma write_output_refuses_existing_witness :
  Sample.w_out.(files) !! "out.txt" = Some (File "kept")
  /\ write_output (Some "out.txt") false (Some Sample.pubchem_found)
       Sample.net Sample.w_out
     = (Returns tt,
        add_stdout ("The file already exist. I won't write any data." +:+ NL)
          Sample.w_out)
  /\ files (snd (write_output (Some "out.txt") false (Some Sample.pubchem_found)
                   Sample.net Sample.w_out))
     = files Sample.w_out.
Proof.
  assert (Hthere : Sample.w_out.(files) !! "out.txt" = Some (File "kept"))
    by (vm_compute; reflexivity).
  split; [exact Hthere|].
  exact (write_output_refuses_existing "out.txt" (Some Sample.pubchem_found)
           Sample.net Sample.w_out (File "kept") Hthere).
Defined.

(** * Further properties of the code *)

(** ** What computations leave alone *)

Section Stays.

Variable R : World -> World -> Prop.
Hypothesis R_refl : forall w, R w w.
Hypothesis R_trans : forall w1 w2 w3, R w1 w2 -> R w2 w3 -> R w1 w3.

Lemma stays_ret {A} (a : A) : stays R (ret a).
Proof. intros net w. apply R_refl. Qed.

Lemma stays_raise {A} (e : exn) : stays R (@raise A e).
Proof. intros net w. apply R_refl. Qed.

(** The second half only has to behave after a return of the first. *)
Lemma stays_bind_after {A B} (m : M A) (k : A -> M B) :
  stays R m ->
  (forall a net w w', m net w = (Returns a, w') -> R w' (snd (k a net w'))) ->
  stays R (bind m k).
Proof.
  intros Hm Hk net w. unfold bind. specialize (Hm net w).
  destruct (m net w) as [[a|e] w1] eqn:Hrun; simpl in Hm.
  - eapply R_trans; [exact Hm|]. eapply Hk. exact Hrun.
  - exact Hm.
Qed.

Lemma stays_bind {A B} (m : M A) (k : A -> M B) :
  stays R m -> (forall a, stays R (k a)) -> stays R (bind m k).
Proof. intros Hm Hk. apply stays_bind_after; [exact Hm|]. intros. apply Hk. Qed.

Lemma stays_for_in {A S} (body : A -> S -> M (signal * S)) l :
  (forall x s, stays R (body x s)) -> forall s, stays R (for_in l body s).
Proof.
  intros Hbody. induction l as [|x l IH]; intros s; simpl.
  - apply stays_ret.
  - apply stays_bind; [apply Hbody|].
    intros [[| |] s']; auto using stays_ret.
Qed.

End Stays.

Lemma only_asked_refl w : only_asked w w.
Proof. repeat split. exists []. now rewrite app_nil_r. Qed.

Lemma only_asked_trans w1 w2 w3 :
  only_asked w1 w2 -> only_asked w2 w3 -> only_asked w1 w3.
Proof.
  intros (Ho & Hf & a1 & Hr) (Ho' & Hf' & a2 & Hr'). repeat split; try congruence.
  exists (a1 ++ a2). now rewrite Hr', Hr, app_assoc.
Qed.

Lemma same_files_refl w : same_files w w.
Proof. reflexivity. Qed.

Lemma same_files_trans w1 w2 w3 :
  same_files w1 w2 -> same_files w2 w3 -> same_files w1 w3.
Proof. unfold same_files. congruence. Qed.

Lemma only_asked_same_files w w' : only_asked w w' -> same_files w w'.
Proof. intros (_ & Hf & _). exact Hf. Qed.

Lemma urlopen_only_asks url : stays only_asked (urlopen url).
Proof.
  intros net w. rewrite urlopen_requests. repeat split. now exists [url].
Qed.

Lemma ET_parse_getroot_only_asks url b : stays only_asked (ET_parse_getroot url b).
Proof. intros net w. destruct b; apply only_asked_refl. Qed.

Lemma assert_str_only_asks v : stays only_asked (assert_str v).
Proof. intros net w. destruct v; apply only_asked_refl. Qed.

Lemma read_prop_only_asks child compound :
  stays only_asked (PubChem.read_prop child compound).
Proof. intros net w. rewrite read_prop_same_world. apply only_asked_refl. Qed.

Create HintDb only_asks.
#[local] Hint Resolve urlopen_only_asks ET_parse_getroot_only_asks
  assert_str_only_asks read_prop_only_asks : only_asks.

Ltac only_asks :=
  repeat first
    [ solve [auto 1 with only_asks nocore]
    | apply (stays_bind only_asked only_asked_trans)
    | apply (stays_for_in only_asked only_asked_refl only_asked_trans)
    | apply (stays_ret only_asked only_asked_refl)
    | apply (stays_raise only_asked only_asked_refl)
    | intro ].

Lemma getCompoundFromCID_only_asks v : stays only_asked (PubChem.getCompoundFromCID v).
Proof. unfold PubChem.getCompoundFromCID. only_asks. Qed.

Lemma getCompoundFromCSID_only_asks v :
  stays only_asked (ChemSpiderOD.getCompoundFromCSID v).
Proof. unfold ChemSpiderOD.getCompoundFromCSID. only_asks. Qed.

#[local] Hint Resolve getCompoundFromCID_only_asks getCompoundFromCSID_only_asks
  : only_asks.

Lemma PubChem_search_only_asks query : stays only_asked (PubChem.search query).
Proof. unfold PubChem.search. only_asks. Qed.

Lemma ChemSpiderOD_search_only_asks query :
  stays only_asked (ChemSpiderOD.search query).
Proof. unfold ChemSpiderOD.search. only_asks. Qed.

(** The coordinator leaves alone what all its backends leave alone. *)
Lemma query_all_stays R subclasses query :
  (forall w, R w w) -> (forall w1 w2 w3, R w1 w2 -> R w2 w3 -> R w1 w3) ->
  Forall (fun odb => forall q, stays R (odb_search odb q)) subclasses ->
  stays R (query_all subclasses query).
Proof.
  intros Hrefl Htrans Hall.
  induction Hall as [|odb odbs Hodb _ IH]; simpl.
  - now apply stays_ret.
  - apply (stays_bind R Htrans); [apply Hodb|]. intros found.
    apply (stays_bind R Htrans); [exact IH|]. intros others. now apply stays_ret.
Qed.

Lemma ChemInfo_search_stays R subclasses query first :
  (forall w, R w w) -> (forall w1 w2 w3, R w1 w2 -> R w2 w3 -> R w1 w3) ->
  Forall (fun odb => forall q, stays R (odb_search odb q)) subclasses ->
  stays R (ChemInfo.search subclasses query first).
Proof.
  intros Hrefl Htrans Hall net w. rewrite search_query_all.
  now apply query_all_stays.
Qed.

Lemma registered_only_ask :
  Forall (fun odb => forall q, stays only_asked (odb_search odb q)) registered.
Proof.
  constructor; [intros q; apply PubChem_search_only_asks|].
  constructor; [intros q; apply ChemSpiderOD_search_only_asks|].
  constructor.
Qed.

(** X1. Whatever the query, the flag, the remote side and the outcome
    (a list or an exception), a search over the two backends of the script
    prints nothing, touches no file and keeps the requests made before it;
    the search of PubChem adds at most two requests. *)
Theorem searches_only_ask (query : string) (first : bool) (net : Net) (w : World) :
  only_asked w (snd (ChemInfo.search registered query first net w))
  /\ only_asked w (snd (PubChem.search query net w))
  /\ only_asked w (snd (ChemSpiderOD.search query net w))
  /\ length (requests (snd (PubChem.search query net w))) <= length (requests w) + 2.
Proof.
  split; [|split; [|split]].
  - apply (ChemInfo_search_stays only_asked registered query first
             only_asked_refl only_asked_trans registered_only_ask).
  - apply PubChem_search_only_asks.
  - apply ChemSpiderOD_search_only_asks.
  - unfold PubChem.search, bind at 1, urlopen.
    destruct (net (requests w) (PubChem.search_resturl query)) as [[|root]|];
      simpl; rewrite ?length_app; simpl; try lia.
    unfold bind at 1, ret at 1.
    destruct (rev (children root)) as [|c rest]; simpl;
      [rewrite length_app; simpl; lia|].
    unfold bind at 1 2.
    destruct (text c) as [cid|]; [|simpl; rewrite length_app; simpl; lia].
    pose proof (getCompoundFromCID_requests cid net
                  (add_request (PubChem.search_resturl query) w)) as Hw.
    destruct (PubChem.getCompoundFromCID (Some cid) net _) as [[compound|e] w1];
      simpl in Hw; subst w1; simpl; rewrite !length_app; simpl; lia.
Qed.

(** ** Failures *)

Lemma query_all_propagates_failure before odb after query net w founds w1 e w2 :
  answers net query before w founds w1 ->
  odb_search odb query net w1 = (Raises e, w2) ->
  query_all (before ++ odb :: after) query net w = (Raises e, w2).
Proof.
  intros Hbefore Hodb.
  induction Hbefore as [w|odb0 odbs w found w1 founds w3 Hodb0 _ IH]; simpl.
  - now rewrite (bind_raises _ _ _ _ _ _ Hodb).
  - rewrite (bind_returns _ _ _ _ _ _ Hodb0).
    now rewrite (bind_raises _ _ _ _ _ _ (IH Hodb)).
Qed.

(** X2. When the backends before [odb] return their lists and the search
    of [odb] raises, [ChemInfo.search] raises the same exception in the
    world [odb] left: the lists found so far are not returned and the
    backends after [odb] are not asked, with either value of [first]. *)
Theorem ChemInfo_search_propagates_failure
  (before : list AbstractOnlineDatabase) (odb : AbstractOnlineDatabase)
  (after : list AbstractOnlineDatabase) (query : string) (first : bool)
  (net : Net) (w w1 w2 : World) (founds : list (list Compound)) (e : exn) :
  answers net query before w founds w1 ->
  odb_search odb query net w1 = (Raises e, w2) ->
  ChemInfo.search (before ++ odb :: after) query first net w = (Raises e, w2).
Proof.
  intros Hbefore Hodb. rewrite search_query_all.
  eapply query_all_propagates_failure; eassumption.
Qed.


(** The loop of [ChemSpiderOD.search] over ids whose detail requests are
    answered, with more children after them. *)
Lemma ChemSpiderOD_loop_then net kids rest :
  forall ids details acc w,
    map text kids = map Some ids ->
    length details = length ids ->
    (forall i id d,
        ids !! i = Some id -> details !! i = Some d ->
        net (requests w ++ map ChemSpiderOD.apiurl (take i ids)) (ChemSpiderOD.apiurl id)
        = Some (Xml d)) ->
    for_in (kids ++ rest)
      (fun child compounds =>
         compound <- ChemSpiderOD.getCompoundFromCSID (text child) ;;
         ret (Normal, compounds ++ [compound]))
      acc net w
    = for_in rest
        (fun child compounds =>
           compound <- ChemSpiderOD.getCompoundFromCSID (text child) ;;
           ret (Normal, compounds ++ [compound]))
        (acc ++ map chemspider_record details) net
        (add_requests (map ChemSpiderOD.apiurl ids) w).
Proof.
  induction kids as [|kid kids IH]; intros ids details acc w Hids Hlen Hnet.
  - destruct ids; [|discriminate Hids]. destruct details; [|discriminate Hlen].
    simpl. now rewrite app_nil_r, add_requests_nil.
  - destruct ids as [|id ids]; [discriminate Hids|].
    destruct details as [|d details]; [discriminate Hlen|].
    simpl in Hids. injection Hids as Hkid Hids. simpl in Hlen. injection Hlen as Hlen.
    simpl app. simpl for_in at 1. rewrite Hkid.
    assert (H0 : net (requests w) (ChemSpiderOD.apiurl id) = Some (Xml d)).
    { specialize (Hnet 0 id d eq_refl eq_refl). simpl in Hnet.
      now rewrite app_nil_r in Hnet. }
    unfold bind at 1 2.
    rewrite (getCompoundFromCSID_answered _ _ _ _ H0). unfold ret at 1.
    rewrite (IH ids details); try assumption.
    + rewrite add_requests_cons. simpl. now rewrite <- app_assoc.
    + intros i id' d' Hi Hd. specialize (Hnet (S i) id' d' Hi Hd).
      simpl in Hnet. simpl. now rewrite <- app_assoc.
Qed.

Lemma ChemSpiderOD_search_prefix query net w root kids rest ids details :
  net (requests w) (ChemSpiderOD.searchurl query) = Some (Xml root) ->
  children root = kids ++ rest ->
  map text kids = map Some ids ->
  chemspider_answered net w query ids details ->
  ChemSpiderOD.search query net w
  = for_in rest
      (fun child compounds =>
         compound <- ChemSpiderOD.getCompoundFromCSID (text child) ;;
         ret (Normal, compounds ++ [compound]))
      (map chemspider_record details) net
      (add_requests (ChemSpiderOD.searchurl query :: map ChemSpiderOD.apiurl ids) w).
Proof.
  intros Hnet Hkids Hids [Hlen Hdetails].
  rewrite (ChemSpiderOD_search_answered _ _ _ _ Hnet), Hkids.
  rewrite (ChemSpiderOD_loop_then net kids rest ids details); try assumption.
  - now rewrite add_requests_cons.
  - intros i id d Hi Hd. simpl. rewrite <- app_assoc. simpl. now apply Hdetails.
Qed.


(** X5. An id element without text stops either search with [NameError]:
    the check of the id reads the name [unicode], which Python 3 does not
    have. PubChem looks at the last element only; ChemSpider fails at the
    first such element, after the detail requests for the ids before it,
    and returns none of their records. *)
Theorem search_fails_on_id_without_text (query : string) (net : Net) (w : World) :
  (forall root ids c,
      net (requests w) (PubChem.search_resturl query) = Some (Xml root) ->
      children root = ids ++ [c] ->
      text c = None ->
      PubChem.search query net w
      = (Raises (NameError "unicode"), add_request (PubChem.search_resturl query) w))
  /\ (forall root kids c rest ids details,
      net (requests w) (ChemSpiderOD.searchurl query) = Some (Xml root) ->
      children root = kids ++ c :: rest ->
      map text kids = map Some ids ->
      chemspider_answered net w query ids details ->
      text c = None ->
      ChemSpiderOD.search query net w
      = (Raises (NameError "unicode"),
         add_requests
           (ChemSpiderOD.searchurl query :: map ChemSpiderOD.apiurl ids) w)).
Proof.
  split.
  - intros root ids c Hnet Hkids Hc.
    rewrite (PubChem_search_answered _ _ _ _ Hnet), Hkids, rev_app_distr.
    simpl. now rewrite Hc.
  - intros root kids c rest ids details Hnet Hkids Hids Hdetails Hc.
    rewrite (ChemSpiderOD_search_prefix _ _ _ _ _ _ _ _ Hnet Hkids Hids Hdetails).
    simpl. now rewrite Hc.
Qed.

(** ** What the records hold *)

Lemma read_prop_keeps_unused child compound net w sg compound' w' :
  PubChem.read_prop child compound net w = (Returns (sg, compound'), w') ->
  _imageUrl compound' = _imageUrl compound /\ _formula compound' = _formula compound.
Proof.
  unfold PubChem.read_prop, bind, dot_text, ret, raise.
  destruct (List.find _ (iter child)) as [label|]; [|discriminate].
  destruct (List.find _ (iter child)) as [value|];
    destruct (pystr_eqb (text label) "IUPAC Name");
    destruct (pystr_eqb (text label) "SMILES");
    intros H; inversion H; subst; auto.
Qed.

(** Every list [PubChem.search] returns is empty or holds the one record
    a run of the detail step returned. *)
Lemma PubChem_search_inv query net w l w' :
  PubChem.search query net w = (Returns l, w') ->
  l = []
  \/ exists v w1 compound,
      PubChem.getCompoundFromCID v net w1 = (Returns compound, w')
      /\ l = [compound].
Proof.
  intros Hrun. unfold PubChem.search in Hrun.
  apply bind_inv in Hrun as (response & w1 & _ & Hrun).
  apply bind_inv in Hrun as (root & w2 & _ & Hrun).
  destruct (rev (children root)) as [|c rest].
  - left. now inversion Hrun.
  - right. simpl in Hrun.
    apply bind_inv in Hrun as ([sg found] & w3 & Hbody & Hrun).
    apply bind_inv in Hbody as (compound & w4 & Hcid & Hret).
    inversion Hret; subst sg found w4. inversion Hrun; subst l w3.
    now exists (text c), w2, compound.
Qed.

(** Every record of a list [ChemSpiderOD.search] returns was returned by
    a run of the detail step. *)
Lemma ChemSpiderOD_search_inv query net w l w' :
  ChemSpiderOD.search query net w = (Returns l, w') ->
  Forall (fun compound =>
            exists v net1 w1 w2,
              ChemSpiderOD.getCompoundFromCSID v net1 w1 = (Returns compound, w2)) l.
Proof.
  intros Hrun. unfold ChemSpiderOD.search in Hrun.
  apply bind_inv in Hrun as (response & w1 & _ & Hrun).
  apply bind_inv in Hrun as (root & w2 & _ & Hrun).
  apply (for_in_inv
           (Forall (fun compound =>
                      exists v net1 w1 w2,
                        ChemSpiderOD.getCompoundFromCSID v net1 w1
                        = (Returns compound, w2))))
    in Hrun; [exact Hrun | | constructor].
  intros child acc net0 w0 sg acc' w0' Hacc Hbody.
  apply bind_inv in Hbody as (compound & w3 & Hcsid & Hret).
  inversion Hret; subst. apply Forall_app. split; [exact Hacc|].
  constructor; [|constructor]. now exists (text child), net0, w0, w0'.
Qed.

(** A record the ChemSpider detail step returns is the record of the
    document it was answered with. *)
Lemma getCompoundFromCSID_inv v net w compound w' :
  ChemSpiderOD.getCompoundFromCSID v net w = (Returns compound, w') ->
  exists csid root,
    v = Some csid
    /\ net (requests w) (ChemSpiderOD.apiurl csid) = Some (Xml root)
    /\ compound = chemspider_record root.
Proof.
  intros H. destruct v as [csid|]; [|discriminate H].
  unfold ChemSpiderOD.getCompoundFromCSID in H. simpl assert_str in H.
  unfold bind at 1, ret at 1, bind at 1, urlopen in H.
  destruct (net (requests w) (ChemSpiderOD.apiurl csid)) as [[|root]|] eqn:Hnet;
    try discriminate H.
  exists csid, root. split; [reflexivity|]. split; [exact Hnet|].
  unfold bind, ET_parse_getroot, ret at 1 in H.
  rewrite for_in_pure in H. now inversion H.
Qed.

(** X6. No backend ever fills in the image URL or the formula: in every
    record either search returns they are the empty string. PubChem does
    not fill in the molecular weight either. *)
Theorem search_records_unused_fields (query : string) (net : Net) (w : World) :
  (forall l w',
      PubChem.search query net w = (Returns l, w') ->
      Forall (fun compound =>
                _imageUrl compound = Some "" /\ _formula compound = Some ""
                /\ _molWeight compound = Some "") l)
  /\ (forall l w',
      ChemSpiderOD.search query net w = (Returns l, w') ->
      Forall (fun compound =>
                _imageUrl compound = Some "" /\ _formula compound = Some "") l).
Proof.
  split; intros l w' Hrun.
  - apply PubChem_search_inv in Hrun as [->|(v & w1 & compound & Hcid & ->)];
      constructor; [|constructor].
    destruct v as [cid|]; [|discriminate Hcid].
    unfold PubChem.getCompoundFromCID in Hcid. simpl assert_str in Hcid.
    apply bind_inv in Hcid as (cid' & w2 & _ & Hcid).
    apply bind_inv in Hcid as (response & w3 & _ & Hcid).
    apply bind_inv in Hcid as (root & w4 & _ & Hcid).
    apply (for_in_inv
             (fun c => _imageUrl c = Some "" /\ _formula c = Some ""
                       /\ _molWeight c = Some "")) in Hcid.
    + exact Hcid.
    + intros x s net0 w0 sg s' w0' (Hi & Hf & Hm) Hx.
      pose proof (read_prop_keeps _ _ _ _ _ _ _ Hx) as (_ & _ & Hm').
      pose proof (read_prop_keeps_unused _ _ _ _ _ _ _ Hx) as (Hi' & Hf').
      now rewrite Hi', Hf', Hm'.
    + repeat split.
  - apply ChemSpiderOD_search_inv in Hrun.
    eapply Forall_impl; [exact Hrun|].
    intros compound (v & net1 & w1 & w2 & Hcsid).
    apply getCompoundFromCSID_inv in Hcsid as (csid & root & _ & _ & ->).
    pose proof (chemspider_record_defaults root) as (Hi & Hf & _).
    now split.
Qed.

Lemma read_field_other field local child compound :
  In (local, field) chemspider_fields ->
  tag child <> "{http://www.chemspider.com/}" +:+ local ->
  field (ChemSpiderOD.read_field child compound) = field compound.
Proof.
  intros Hin Htag. unfold ChemSpiderOD.read_field.
  simpl in Hin. destruct Hin as [H|[H|[H|[H|[]]]]]; inversion H; subst;
    repeat match goal with
           | |- context [String.eqb ?a ?b] => destruct (String.eqb_spec a b)
           end; simpl; first [reflexivity | contradiction].
Qed.

Lemma read_field_own field local child compound :
  In (local, field) chemspider_fields ->
  tag child = "{http://www.chemspider.com/}" +:+ local ->
  field (ChemSpiderOD.read_field child compound) = text child.
Proof.
  intros Hin Htag. unfold ChemSpiderOD.read_field. rewrite Htag.
  simpl in Hin. destruct Hin as [H|[H|[H|[H|[]]]]]; inversion H; subst;
    reflexivity.
Qed.

(** X7. Of several elements for one field in a ChemSpider detail
    document, the last one decides: the field of the record is its text,
    and it is [None] when that element has no text. *)
Theorem chemspider_record_last_element_wins
  (root : Element) (before : list Element) (child : Element) (after : list Element)
  (local : string) (field : Compound -> pystr) :
  In (local, field) chemspider_fields ->
  children root = before ++ child :: after ->
  tag child = "{http://www.chemspider.com/}" +:+ local ->
  Forall (fun later => tag later <> "{http://www.chemspider.com/}" +:+ local) after ->
  field (chemspider_record root) = text child.
Proof.
  intros Hin Hkids Htag Hafter. unfold chemspider_record.
  rewrite Hkids, fold_left_app. simpl.
  rewrite (read_fields_keep field
             (fun later => tag later <> "{http://www.chemspider.com/}" +:+ local));
    [|intros; now apply (read_field_other field local)|exact Hafter].
  now apply (read_field_own field local).
Qed.

(** ** Writing the records *)

Lemma append_assoc (a b c : string) : (a +:+ b) +:+ c = a +:+ (b +:+ c).
Proof.
  induction a as [|x a IH]; [reflexivity|].
  change (String x ((a +:+ b) +:+ c) = String x (a +:+ (b +:+ c))).
  now rewrite IH.
Qed.

Lemma append_nil_r (a : string) : a +:+ "" = a.
Proof.
  induction a as [|x a IH]; [reflexivity|].
  change (String x (a +:+ "") = String x a). now rewrite IH.
Qed.

Lemma add_stdout_twice a b w : add_stdout b (add_stdout a w) = add_stdout (a +:+ b) w.
Proof. unfold add_stdout. simpl. now rewrite append_assoc. Qed.

Lemma print_run s net w : print s net w = (Returns tt, add_stdout (s +:+ NL) w).
Proof. reflexivity. Qed.

(** The loop that prints the records prints their blocks. *)
Lemma print_compounds l net w :
  for_in l print_compound tt net w = (Returns tt, add_stdout (blocks l) w).
Proof.
  revert w. induction l as [|compound l IH]; intros w.
  - simpl. unfold ret, add_stdout. rewrite append_nil_r. now destruct w.
  - simpl for_in. unfold bind at 1, print_compound, bind.
    rewrite !print_run. unfold ret at 1. rewrite IH, !add_stdout_twice.
    f_equal. f_equal. cbn [blocks]. unfold block.
    now rewrite !append_assoc.
Qed.




(** ** The loop over the names *)

Lemma search_name_with_records subclasses name compounds net w found w' :
  ChemInfo.search subclasses name true net w = (Returns found, w') ->
  found <> [] ->
  search_name subclasses name compounds net w = (Returns (Normal, Some found), w').
Proof.
  intros Hsearch Hfound. unfold search_name.
  rewrite (bind_returns _ _ _ _ _ _ Hsearch).
  destruct found; [contradiction|reflexivity].
Qed.

Lemma names_loop_answered subclasses net ns w founds w' compounds :
  names_answered subclasses net ns w founds w' ->
  for_in ns (search_name subclasses) compounds net w
  = (Returns (match last founds with Some l => Some l | None => compounds end), w').
Proof.
  intros Hall. revert compounds.
  induction Hall as [w|name ns w found w1 founds w2 Hsearch Hfound _ IH];
    intros compounds.
  - reflexivity.
  - simpl for_in.
    rewrite (bind_returns _ _ _ _ _ _
               (search_name_with_records _ _ compounds _ _ _ _ Hsearch Hfound)).
    rewrite IH. f_equal. f_equal.
    destruct founds as [|found' founds]; [reflexivity|].
    simpl. destruct (last (found' :: founds)) eqn:Hlast; [reflexivity|].
    now apply last_None in Hlast.
Qed.

(** X9. A run whose options are read without an exit and give the names
    [ns], every one of which has records: only the records [l] of the last
    name are kept. After an empty line their blocks and a closing rule are
    printed, and the same records go to the writing step. *)
Theorem main_prints_last_name
  (subclasses : list AbstractOnlineDatabase) (opts : list (string * string))
  (args : list string) (net : Net) (w w1 w2 : World) (st : options)
  (ns : list string) (founds : list (list Compound)) (l : list Compound) :
  for_in opts (read_option subclasses) (mkOptions None false None false) net w
  = (Returns st, w1) ->
  names st = Some ns ->
  names_answered subclasses net ns w1 founds w2 ->
  last founds = Some l ->
  main subclasses (Parsed opts args) net w
  = write_output (output st) (forceOutput st) (Some l) net
      (add_stdout (NL +:+ blocks l +:+ "---------" +:+ NL +:+ NL) w2).
Proof.
  intros Hopts Hnames Hall Hlast. unfold main.
  rewrite (bind_returns _ _ _ _ _ _ Hopts), Hnames.
  rewrite (bind_returns _ _ _ _ _ _ (names_loop_answered _ _ _ _ _ _ None Hall)).
  rewrite Hlast. unfold bind at 1. rewrite print_run.
  simpl iterable. unfold bind at 1, ret at 1, bind at 1.
  rewrite print_compounds. unfold bind at 1. rewrite print_run.
  rewrite !add_stdout_twice. reflexivity.
Qed.

(** X10. The loop over the names completes only when every name has at
    least one record: whenever it returns, each name was answered with a
    list that is not empty, and the value it returns is the list of the
    last name (or the initial value, for no names at all). *)
Theorem names_loop_needs_records
  (subclasses : list AbstractOnlineDatabase) (ns : list string)
  (compounds : option (list Compound)) (net : Net) (w w' : World)
  (r : option (list Compound)) :
  for_in ns (search_name subclasses) compounds net w = (Returns r, w') ->
  exists founds,
    names_answered subclasses net ns w founds w'
    /\ length founds = length ns
    /\ r = match last founds with Some l => Some l | None => compounds end.
Proof.
  revert compounds w. induction ns as [|name ns IH]; intros compounds w Hrun.
  - inversion Hrun; subst. exists []. repeat split. constructor.
  - simpl in Hrun. apply bind_inv in Hrun as ([sg compounds1] & w1 & Hbody & Hrun).
    unfold search_name in Hbody.
    apply bind_inv in Hbody as (found & w0 & Hsearch & Hbody).
    destruct found as [|compound found]; [discriminate Hbody|].
    inversion Hbody; subst sg compounds1 w0.
    apply IH in Hrun as (founds & Hall & Hlen & ->).
    exists ((compound :: found) :: founds). split; [|split].
    + econstructor; [exact Hsearch | discriminate | exact Hall].
    + simpl. now rewrite Hlen.
    + destruct founds as [|found' founds]; [reflexivity|].
      simpl. destruct (last (found' :: founds)) eqn:Hlast; [reflexivity|].
    now apply last_None in Hlast.
Qed.

(** ** Reading the options *)

(** An option that sets a local does that and nothing else. *)
Lemma read_option_setting subclasses o a st net w :
  In o setting_options ->
  exists st',
    read_option subclasses (o, a) st net w = (Returns (Normal, st'), w)
    /\ (o <> "-n" -> o <> "--names" -> names st' = names st).
Proof.
  intros Hin. simpl in Hin.
  destruct Hin as [<-|[<-|[<-|[<-|[<-|[<-|[]]]]]]];
    (eexists; split; [reflexivity|]); intros H1 H2;
    first [reflexivity | now contradiction H1 | now contradiction H2].
Qed.

(** After options that set locals the loop goes on in the same world. *)
Lemma options_loop_setting subclasses pre net w :
  Forall (fun oa => In (fst oa) setting_options) pre ->
  forall st,
  exists st',
    (forall rest,
        for_in (pre ++ rest) (read_option subclasses) st net w
        = for_in rest (read_option subclasses) st' net w)
    /\ (Forall (fun oa => fst oa <> "-n" /\ fst oa <> "--names") pre ->
        names st' = names st).
Proof.
  induction 1 as [|[o a] pre Ho _ IH]; intros st.
  - exists st. split; [reflexivity|]. reflexivity.
  - simpl in Ho.
    destruct (read_option_setting subclasses o a st net w Ho) as (st1 & Hrun & Hnames).
    destruct (IH st1) as (st' & Hloop & Hnames').
    exists st'. split.
    + intros rest. simpl. rewrite (bind_returns _ _ _ _ _ _ Hrun). apply Hloop.
    + intros Hno. inversion Hno as [|? ? [H1 H2] Hpre]; subst. simpl in H1, H2.
      rewrite (Hnames' Hpre). now apply Hnames.
Qed.

(** X11. Called with options that name no compound ([-v], [-f], [-o],
    [--output] only, or none at all), the program prints its request for
    names and exits with status 2 before any request or file access. *)
Theorem main_without_names_exits
  (subclasses : list AbstractOnlineDatabase) (opts : list (string * string))
  (args : list string) (net : Net) (w : World) :
  Forall (fun oa => In (fst oa) ["-v"; "-f"; "-o"; "--output"]) opts ->
  main subclasses (Parsed opts args) net w
  = (Raises (SystemExit 2),
     add_stdout ("You are pleased to specify one or more name(s)." +:+ NL) w).
Proof.
  intros Hopts.
  assert (Hset : Forall (fun oa => In (fst oa) setting_options) opts).
  { eapply Forall_impl; [exact Hopts|]. intros [o a] H. simpl in *.
    unfold setting_options. simpl. tauto. }
  assert (Hno : Forall (fun oa => fst oa <> "-n" /\ fst oa <> "--names") opts).
  { eapply Forall_impl; [exact Hopts|]. intros [o a] H. simpl in *.
    destruct H as [<-|[<-|[<-|[<-|[]]]]]; split; discriminate. }
  destruct (options_loop_setting subclasses opts net w Hset
              (mkOptions None false None false)) as (st' & Hloop & Hnames).
  specialize (Hloop []). rewrite app_nil_r in Hloop. simpl in Hloop.
  specialize (Hnames Hno). simpl in Hnames.
  unfold main. rewrite (bind_returns _ _ _ _ _ _ Hloop), Hnames. reflexivity.
Qed.

(** X12. Asking for help does not print any: at the first [-h] or
    [--help] that comes after options that set locals, the program raises
    [NameError], since no [usage] is defined, having printed and requested
    nothing. The same happens after the message of a command line that
    [getopt] rejects, so that the exit with status 2 is never reached. *)
Theorem main_help_raises_NameError
  (subclasses : list AbstractOnlineDatabase) (net : Net) (w : World) :
  (forall pre o a post args,
      Forall (fun oa => In (fst oa) setting_options) pre ->
      In o ["-h"; "--help"] ->
      main subclasses (Parsed (pre ++ (o, a) :: post) args) net w
      = (Raises (NameError "usage"), w))
  /\ (forall msg,
      main subclasses (GetoptError msg) net w
      = (Raises (NameError "usage"), add_stdout (msg +:+ NL) w)).
Proof.
  split; [|reflexivity].
  intros pre o a post args Hpre Ho.
  destruct (options_loop_setting subclasses pre net w Hpre
              (mkOptions None false None false)) as (st' & Hloop & _).
  unfold main, bind at 1. rewrite Hloop. simpl for_in. unfold bind at 1.
  simpl in Ho. destruct Ho as [<-|[<-|[]]]; reflexivity.
Qed.

(** X13. At the first [-l] or [--list-databases] that comes after options
    that set locals, the program prints the names of the registered
    backends, in the order of the registry and separated by commas, on one
    line after its heading, and exits with status 0; no request is made. *)
Theorem main_lists_registered_backends
  (subclasses : list AbstractOnlineDatabase)
  (pre : list (string * string)) (o a : string) (post : list (string * string))
  (args : list string) (net : Net) (w : World) :
  Forall (fun oa => In (fst oa) setting_options) pre ->
  In o ["-l"; "--list-databases"] ->
  main subclasses (Parsed (pre ++ (o, a) :: post) args) net w
  = (Raises (SystemExit 0),
     add_stdout ("List of available Online Database Modules: "
                 +:+ String.concat "," (map odb_name subclasses) +:+ NL) w).
Proof.
  intros Hpre Ho.
  destruct (options_loop_setting subclasses pre net w Hpre
              (mkOptions None false None false)) as (st' & Hloop & _).
  unfold main, bind at 1. rewrite Hloop. simpl for_in.
  assert (Hrun : read_option subclasses (o, a) st' net w
    = (Raises (SystemExit 0),
       add_stdout ("List of available Online Database Modules: "
                   +:+ String.concat "," (map odb_name subclasses) +:+ NL) w)).
  { simpl in Ho. destruct Ho as [<-|[<-|[]]];
      unfold read_option; simpl; unfold bind, print_noend;
      rewrite print_run, add_stdout_twice; reflexivity. }
  now rewrite (bind_raises _ _ _ _ _ _ Hrun).
Qed.

(** ** Files *)

(** Reading an option touches no file. *)
Lemma read_option_same_files subclasses oa st :
  stays same_files (read_option subclasses oa st).
Proof.
  intros net w. destruct oa as [o a]. unfold read_option.
  repeat match goal with
         | |- context [if ?b then _ else _] => destruct b
         end; reflexivity.
Qed.

(** When it returns, it has changed the output path only for [-o] or
    [--output], and set the force flag only for what it takes for [-f]. *)
Lemma read_option_returns subclasses o a st net w sg st' w' :
  read_option subclasses (o, a) st net w = (Returns (sg, st'), w') ->
  (o <> "-o" -> o <> "--output" -> output st' = output st)
  /\ (str_in o "-f" = false -> forceOutput st' = forceOutput st).
Proof.
  unfold read_option.
  destruct (String.eqb o "-v"); [intros H; inversion H; subst; now split|].
  destruct (str_in o "-f") eqn:Hf;
    [intros H; inversion H; subst; split; [reflexivity|discriminate]|].
  destruct (String.eqb o "-l" || String.eqb o "--list-databases");
    [discriminate|].
  destruct (String.eqb o "-n" || String.eqb o "--names");
    [intros H; inversion H; subst; now split|].
  destruct (String.eqb o "-h" || String.eqb o "--help"); [discriminate|].
  destruct (String.eqb o "-o" || String.eqb o "--output") eqn:Ho; [|discriminate].
  intros H; inversion H; subst. split; [|reflexivity].
  intros H1 H2. apply orb_prop in Ho as [Ho|Ho]; apply String.eqb_eq in Ho;
    contradiction.
Qed.

Lemma options_loop_returns subclasses opts net :
  forall st w st' w',
    for_in opts (read_option subclasses) st net w = (Returns st', w') ->
    (Forall (fun oa => fst oa <> "-o" /\ fst oa <> "--output") opts ->
     output st' = output st)
    /\ (Forall (fun oa => str_in (fst oa) "-f" = false) opts ->
        forceOutput st' = forceOutput st).
Proof.
  induction opts as [|[o a] opts IH]; intros st w st' w' Hrun.
  - inversion Hrun; subst. now split.
  - simpl in Hrun. apply bind_inv in Hrun as ([sg st1] & w1 & Hbody & Hrun).
    pose proof (read_option_returns _ _ _ _ _ _ _ _ _ Hbody) as [Hout Hforce].
    assert (Hrest : for_in opts (read_option subclasses) st1 net w1 = (Returns st', w')
                    \/ st' = st1).
    { destruct sg; [now left|now left|right]. now inversion Hrun. }
    split; intros Hno; inversion Hno as [|? ? Ho Hopts]; subst; simpl in Ho.
    + destruct Hrest as [Hrest| ->]; [|now apply Hout].
      apply IH in Hrest as [Hout' _]. rewrite (Hout' Hopts). now apply Hout.
    + destruct Hrest as [Hrest| ->]; [|now apply Hforce].
      apply IH in Hrest as [_ Hforce']. rewrite (Hforce' Hopts). now apply Hforce.
Qed.

Lemma print_same_files s : stays same_files (print s).
Proof. intros net w. reflexivity. Qed.

Lemma search_name_same_files name compounds :
  stays same_files (search_name registered name compounds).
Proof.
  unfold search_name.
  apply (stays_bind same_files same_files_trans).
  - intros net w. apply only_asked_same_files.
    apply (ChemInfo_search_stays only_asked registered name true
             only_asked_refl only_asked_trans registered_only_ask).
  - intros found. destruct (length found <? 1)%nat.
    + intros net w. reflexivity.
    + apply (stays_ret same_files same_files_refl).
Qed.

(** Up to its last step a run touches no file: it ends there with the
    files it started with, or it goes into the writing step with them. *)
Lemma main_reaches_write opts args net w :
  files (snd (main registered (Parsed opts args) net w)) = files w
  \/ exists st w0 w1 compounds,
      for_in opts (read_option registered) (mkOptions None false None false) net w
      = (Returns st, w0)
      /\ files w1 = files w
      /\ main registered (Parsed opts args) net w
         = write_output (output st) (forceOutput st) compounds net w1.
Proof.
  remember (main registered (Parsed opts args) net w) as run eqn:Hrun.
  unfold main, bind at 1 in Hrun.
  pose proof (stays_for_in same_files same_files_refl same_files_trans
                (read_option registered) opts
                (read_option_same_files registered)
                (mkOptions None false None false) net w) as Hw0.
  destruct (for_in opts (read_option registered) _ net w) as [[st|e] w0] eqn:Hopts;
    simpl in Hw0; [|left; now subst run].
  destruct (names st) as [ns|]; [|left; now subst run].
  unfold bind at 1 in Hrun.
  pose proof (stays_for_in same_files same_files_refl same_files_trans
                (search_name registered) ns search_name_same_files None net w0) as Hw1.
  destruct (for_in ns (search_name registered) None net w0) as [[compounds|e] w1];
    simpl in Hw1; [|left; subst run; simpl; unfold same_files in *; congruence].
  unfold bind at 1 in Hrun. rewrite print_run in Hrun.
  destruct compounds as [l|];
    [|left; subst run; unfold bind, iterable, raise; simpl;
      unfold same_files in *; congruence].
  simpl iterable in Hrun. unfold bind at 1, ret at 1, bind at 1 in Hrun.
  rewrite print_compounds in Hrun. unfold bind at 1 in Hrun.
  rewrite print_run in Hrun.
  right. exists st, w0. eexists. exists (Some l).
  split; [reflexivity|]. split; [|exact Hrun].
  simpl. unfold same_files in *. congruence.
Qed.

(** X14. Without [-o] and [--output] among its options the program
    leaves every file as it was, however the run ends. *)
Theorem main_without_output_touches_no_file
  (opts : list (string * string)) (args : list string) (net : Net) (w : World) :
  Forall (fun oa => fst oa <> "-o" /\ fst oa <> "--output") opts ->
  files (snd (main registered (Parsed opts args) net w)) = files w.
Proof.
  intros Hno.
  destruct (main_reaches_write opts args net w)
    as [Hsame|(st & w0 & w1 & compounds & Hopts & Hw1 & ->)]; [exact Hsame|].
  apply options_loop_returns in Hopts as [Hout _].
  rewrite (Hout Hno). simpl. exact Hw1.
Qed.

Lemma only_at_refl path w : only_at path w w.
Proof. intros p _. reflexivity. Qed.

Lemma only_at_trans path w1 w2 w3 :
  only_at path w1 w2 -> only_at path w2 w3 -> only_at path w1 w3.
Proof. intros H12 H23 p Hp. now rewrite (H23 p Hp), (H12 p Hp). Qed.

Lemma open_w_only_at path : stays (only_at path) (open_w path).
Proof.
  intros net w p Hp. unfold open_w.
  destruct (files w !! path) as [[contents|]|]; simpl;
    try reflexivity; now apply lookup_insert_ne.
Qed.

Lemma file_write_only_at path s : stays (only_at path) (file_write path s).
Proof. intros net w p Hp. simpl. now apply lookup_alter_ne. Qed.

Lemma write_compound_only_at path compound u :
  stays (only_at path) (write_compound path compound u).
Proof.
  unfold write_compound.
  repeat (apply (stays_bind (only_at path) (only_at_trans path));
          [apply file_write_only_at|intros _]).
  apply (stays_ret (only_at path) (only_at_refl path)).
Qed.

(** Without the force flag the writing step keeps whatever there is. *)
Lemma write_output_keeps_existing output compounds net w p node :
  files w !! p = Some node ->
  files (snd (write_output output false compounds net w)) !! p = Some node.
Proof.
  intros Hp. destruct output as [path|]; [|exact Hp].
  unfold write_output, bind at 1, os_path_exists.
  destruct (files w !! path) as [there|] eqn:Hpath.
  - rewrite bool_decide_eq_true_2 by (eexists; reflexivity). exact Hp.
  - rewrite bool_decide_eq_false_2 by (intros [x Hx]; discriminate Hx).
    assert (Hne : p <> path) by (intros ->; congruence).
    rewrite <- Hp. simpl andb. cbv iota.
    revert net w p Hne Hp Hpath. intros net w p Hne _ _. revert p Hne.
    change (only_at path w
              (snd ((outFile <- open_w path ;;
                     l <- iterable compounds ;;
                     for_in l (write_compound outFile) tt ;;
                     file_write outFile "---------") net w))).
    revert net w.
    apply (stays_bind_after (only_at path) (only_at_trans path));
      [apply open_w_only_at|].
    intros outFile net w w' Hopen.
    assert (outFile = path) as ->.
    { unfold open_w in Hopen.
      destruct (files w !! path) as [[contents|]|]; now inversion Hopen. }
    assert (Hrest : stays (only_at path)
              (l <- iterable compounds ;;
               for_in l (write_compound path) tt ;;
               file_write path "---------")).
    { apply (stays_bind (only_at path) (only_at_trans path)).
      - intros net1 w1. destruct compounds; apply only_at_refl.
      - intros l.
        apply (stays_bind (only_at path) (only_at_trans path)).
        + apply (stays_for_in (only_at path) (only_at_refl path) (only_at_trans path)).
          intros compound u. apply write_compound_only_at.
        + intros _. apply file_write_only_at. }
    apply Hrest.
Qed.

Lemma str_in_f_getopt o : In o getopt_options -> o <> "-f" -> str_in o "-f" = false.
Proof.
  intros Hin Hne. simpl in Hin.
  repeat (destruct Hin as [<-|Hin]; [first [reflexivity | contradiction]|]).
  contradiction.
Qed.

(** X15. Without [-f] among its options the program never changes or
    removes what is in the file system when it starts: every path that
    holds a file or a directory holds the same at the end of the run,
    however it ends. *)
Theorem main_without_force_keeps_existing_files
  (opts : list (string * string)) (args : list string) (net : Net) (w : World)
  (p : string) (node : fsnode) :
  Forall (fun oa => In (fst oa) getopt_options /\ fst oa <> "-f") opts ->
  files w !! p = Some node ->
  files (snd (main registered (Parsed opts args) net w)) !! p = Some node.
Proof.
  intros Hno Hp.
  destruct (main_reaches_write opts args net w)
    as [Hsame|(st & w0 & w1 & compounds & Hopts & Hw1 & ->)];
    [now rewrite Hsame|].
  apply options_loop_returns in Hopts as [_ Hforce].
  rewrite Hforce.
  - simpl. apply write_output_keeps_existing. now rewrite Hw1.
  - eapply Forall_impl; [exact Hno|]. intros [o a] [Hin Hne].
    now apply str_in_f_getopt.
Qed.

(** ** The encoded query *)

Lemma list_ascii_of_append (a b : string) :
  list_ascii_of_string (a +:+ b) = list_ascii_of_string a ++ list_ascii_of_string b.
Proof.
  induction a as [|x a IH]; [reflexivity|].
  change (x :: list_ascii_of_string (a +:+ b)
          = x :: (list_ascii_of_string a ++ list_ascii_of_string b)).
  now rewrite IH.
Qed.

(** What stands for one byte is made of safe bytes and the percent sign. *)
Lemma quoter_alphabet (c : ascii) :
  forallb (fun x => urllib_parse.is_safe x || Ascii.eqb x "%")
    (list_ascii_of_string (urllib_parse.quoter c)) = true.
Proof. destruct c as [[] [] [] [] [] [] [] []]; vm_compute; reflexivity. Qed.

Lemma quote_alphabet (s : string) :
  forallb (fun x => urllib_parse.is_safe x || Ascii.eqb x "%")
    (list_ascii_of_string (urllib_parse.quote s)) = true.
Proof.
  induction s as [|c s IH]; [reflexivity|].
  simpl urllib_parse.quote. rewrite list_ascii_of_append, forallb_app.
  now rewrite quoter_alphabet, IH.
Qed.

(** X16. Between [query=] and [&token=] the search URL of ChemSpider
    holds letters, digits, [_], [.], [-], [~], [/] and [%] only, whatever
    the query is: a blank, [&], [=], [?] or [#] of the query never gets
    into the URL as it is. A query made of safe bytes is put in unchanged. *)
Theorem ChemSpiderOD_searchurl_is_encoded (query : string) :
  ChemSpiderOD.searchurl query
  = "http://www.chemspider.com/Search.asmx/SimpleSearch?query="
    +:+ urllib_parse.quote query +:+ "&token=" +:+ CHEMSPIDER_TOKEN
  /\ Forall (fun c => urllib_parse.is_safe c = true \/ c = "%"%char)
       (list_ascii_of_string (urllib_parse.quote query))
  /\ Forall (fun c => In c (list_ascii_of_string " &=?#") -> False)
       (list_ascii_of_string (urllib_parse.quote query))
  /\ (forallb urllib_parse.is_safe (list_ascii_of_string query) = true ->
      urllib_parse.quote query = query).
Proof.
  pose proof (quote_alphabet query) as Hall.
  rewrite forallb_forall in Hall.
  assert (Hsafe : Forall (fun c => urllib_parse.is_safe c = true \/ c = "%"%char)
                    (list_ascii_of_string (urllib_parse.quote query))).
  { apply List.Forall_forall. intros c Hc. specialize (Hall c Hc).
    apply orb_prop in Hall as [H|H]; [now left|right].
    now apply Ascii.eqb_eq in H. }
  split; [reflexivity|]. split; [exact Hsafe|]. split.
  - eapply Forall_impl; [exact Hsafe|].
    intros c Hc Hin. simpl in Hin.
    destruct Hin as [<-|[<-|[<-|[<-|[<-|[]]]]]];
      destruct Hc as [Hc|Hc]; discriminate Hc.
  - clear. induction query as [|c s IH]; [reflexivity|].
    simpl. intros H. apply andb_prop in H as [Hc Hs].
    unfold urllib_parse.quoter. rewrite Hc, (IH Hs). reflexivity.
Qed.

(** ** The detail steps, exactly *)

Lemma read_prop_readable child compound net w :
  readable child = true ->
  PubChem.read_prop child compound net w
  = (Returns (Normal, pubchem_read compound child), w).
Proof.
  unfold readable, PubChem.read_prop, pubchem_read, label_text, value_text.
  destruct (List.find _ (iter child)) as [label|]; [|discriminate].
  unfold bind, dot_text, ret.
  destruct (List.find (fun item => String.eqb (tag item) PubChem.tag_value_sval)
              (iter child)) as [value|];
    destruct (pystr_eqb (text label) "IUPAC Name");
    destruct (pystr_eqb (text label) "SMILES"); simpl;
    intros H; first [discriminate H | reflexivity].
Qed.

Lemma read_prop_unreadable child compound net w :
  readable child = false ->
  PubChem.read_prop child compound net w = (Raises (AttributeError "text"), w).
Proof.
  unfold readable, PubChem.read_prop.
  destruct (List.find _ (iter child)) as [label|]; [|reflexivity].
  unfold bind, dot_text, ret, raise.
  destruct (List.find (fun item => String.eqb (tag item) PubChem.tag_value_sval)
              (iter child)) as [value|];
    destruct (pystr_eqb (text label) "IUPAC Name");
    destruct (pystr_eqb (text label) "SMILES"); simpl;
    intros H; first [discriminate H | reflexivity].
Qed.

Lemma read_props props :
  forall compound net w,
    for_in props PubChem.read_prop compound net w
    = if forallb readable props
      then (Returns (fold_left pubchem_read props compound), w)
      else (Raises (AttributeError "text"), w).
Proof.
  induction props as [|child props IH]; intros compound net w; [reflexivity|].
  simpl. destruct (readable child) eqn:Hchild.
  - rewrite (bind_returns _ _ _ _ _ _ (read_prop_readable _ compound net w Hchild)).
    apply IH.
  - now rewrite (bind_raises _ _ _ _ _ _ (read_prop_unreadable _ compound net w Hchild)).
Qed.

(** X17. The detail step of PubChem, answered with an XML document,
    returns a record exactly when every [PC-InfoData] element of the
    document has a label and, if the label is [IUPAC Name] or [SMILES], a
    string value: the record is then [pubchem_record]. One element that is
    not like that makes it raise [AttributeError]. Whatever the document,
    the detail request is the only one made. *)
Theorem getCompoundFromCID_answered
  (cid : string) (net : Net) (w : World) (root : Element) :
  net (requests w) (PubChem.cid_resturl cid) = Some (Xml root) ->
  PubChem.getCompoundFromCID (Some cid) net w
  = if forallb readable (pubchem_props root)
    then (Returns (pubchem_record cid root), add_request (PubChem.cid_resturl cid) w)
    else (Raises (AttributeError "text"), add_request (PubChem.cid_resturl cid) w).
Proof.
  intros Hnet. unfold PubChem.getCompoundFromCID. simpl assert_str.
  unfold bind at 1. unfold ret at 1.
  rewrite (bind_returns _ _ _ _ _ _ (urlopen_answered _ _ _ _ Hnet)).
  unfold bind at 1. simpl ET_parse_getroot. unfold ret at 1.
  apply read_props.
Qed.

Lemma pubchem_reads_keep (field : Compound -> pystr) (keeps : Element -> Prop) :
  (forall child compound, keeps child -> field (pubchem_read compound child) = field compound) ->
  forall props compound,
    Forall keeps props ->
    field (fold_left pubchem_read props compound) = field compound.
Proof.
  intros Hstep props. induction props as [|child props IH]; intros compound Hprops.
  - reflexivity.
  - inversion Hprops; subst. simpl. rewrite IH by assumption. now apply Hstep.
Qed.

(** X18. In the record of a PubChem document the name is the string value
    of the last element labelled [IUPAC Name], and the SMILES string that
    of the last element labelled [SMILES]; without such an element the
    field is the empty string. Elements with any other label change
    nothing. *)
Theorem pubchem_record_last_label_wins (cid : string) (root : Element) :
  (forall before child after,
      pubchem_props root = before ++ child :: after ->
      label_text child = Some "IUPAC Name" ->
      Forall (fun later => label_text later <> Some "IUPAC Name") after ->
      _name (pubchem_record cid root) = value_text child)
  /\ (forall before child after,
      pubchem_props root = before ++ child :: after ->
      label_text child = Some "SMILES" ->
      Forall (fun later => label_text later <> Some "SMILES") after ->
      _smiles (pubchem_record cid root) = value_text child)
  /\ (Forall (fun child => label_text child <> Some "IUPAC Name") (pubchem_props root) ->
      _name (pubchem_record cid root) = Some "")
  /\ (Forall (fun child => label_text child <> Some "SMILES") (pubchem_props root) ->
      _smiles (pubchem_record cid root) = Some "").
Proof.
  assert (Hname : forall child compound,
             label_text child <> Some "IUPAC Name" ->
             _name (pubchem_read compound child) = _name compound).
  { intros child compound Hl. unfold pubchem_read.
    destruct (label_text child) as [t|]; simpl.
    - destruct (String.eqb_spec t "IUPAC Name") as [->|_]; [now contradiction Hl|].
      now destruct (String.eqb t "SMILES").
    - reflexivity. }
  assert (Hsmiles : forall child compound,
             label_text child <> Some "SMILES" ->
             _smiles (pubchem_read compound child) = _smiles compound).
  { intros child compound Hl. unfold pubchem_read.
    destruct (label_text child) as [t|]; simpl.
    - destruct (String.eqb_spec t "SMILES") as [->|_]; [now contradiction Hl|].
      now destruct (String.eqb t "IUPAC Name").
    - reflexivity. }
  unfold pubchem_record. repeat split.
  - intros before child after Hprops Hl Hafter.
    rewrite Hprops, fold_left_app. simpl.
    rewrite (pubchem_reads_keep _name _ Hname _ _ Hafter).
    unfold pubchem_read. now rewrite Hl.
  - intros before child after Hprops Hl Hafter.
    rewrite Hprops, fold_left_app. simpl.
    rewrite (pubchem_reads_keep _smiles _ Hsmiles _ _ Hafter).
    unfold pubchem_read. now rewrite Hl.
  - intros Hnone. now rewrite (pubchem_reads_keep _name _ Hname _ _ Hnone).
  - intros Hnone. now rewrite (pubchem_reads_keep _smiles _ Hsmiles _ _ Hnone).
Qed.

(** X19. The detail step of ChemSpider, answered with an XML document,
    always returns: the record is read off the children of the root, the
    id asked for is not put into it, and a field the document has no
    element for is the empty string. *)
Theorem getCompoundFromCSID_reads_document
  (csid : string) (net : Net) (w : World) (root : Element) :
  net (requests w) (ChemSpiderOD.apiurl csid) = Some (Xml root) ->
  ChemSpiderOD.getCompoundFromCSID (Some csid) net w
  = (Returns (chemspider_record root), add_request (ChemSpiderOD.apiurl csid) w)
  /\ forall local field,
      In (local, field) chemspider_fields ->
      Forall (fun child => tag child <> "{http://www.chemspider.com/}" +:+ local)
        (children root) ->
      field (chemspider_record root) = Some "".
Proof.
  intros Hnet. split; [now apply getCompoundFromCSID_answered|].
  intros local field Hin Habsent. unfold chemspider_record.
  rewrite (read_fields_keep field
             (fun child => tag child <> "{http://www.chemspider.com/}" +:+ local));
    [|intros; now apply (read_field_other field local)|exact Habsent].
  simpl in Hin. destruct Hin as [H|[H|[H|[H|[]]]]]; inversion H; reflexivity.
Qed.

(** * Further runs at the sample remote sides *)

Lemma ChemInfo_search_propagates_failure_witness :
  ChemInfo.search registered "aspirin" true Sample.net_flaky Sample.w0
  = (Raises (URLError (ChemSpiderOD.apiurl "10442445")),
     add_requests (Sample.pubchem_asked ++ Sample.chemspider_asked) Sample.w0).
Proof.
  apply (ChemInfo_search_propagates_failure [PubChem.class] ChemSpiderOD.class []
           "aspirin" true Sample.net_flaky Sample.w0
           (add_requests Sample.pubchem_asked Sample.w0) _
           [Sample.pubchem_found]).
  - apply answers_cons with (w1 := add_requests Sample.pubchem_asked Sample.w0);
      [vm_compute; reflexivity | apply answers_nil].
  - vm_compute. reflexivity.
Defined.



Lemma search_fails_on_id_without_text_witness :
  PubChem.search "aspirin" Sample.net_textless Sample.w0
  = (Raises (NameError "unicode"),
     add_request (PubChem.search_resturl "aspirin") Sample.w0)
  /\ ChemSpiderOD.search "aspirin" Sample.net_textless Sample.w0
     = (Raises (NameError "unicode"),
        add_requests [ChemSpiderOD.searchurl "aspirin"; ChemSpiderOD.apiurl "2157"]
          Sample.w0).
Proof.
  destruct (search_fails_on_id_without_text "aspirin" Sample.net_textless Sample.w0)
    as [Hpub Hcs].
  split.
  - apply (Hpub Sample.pubchem_ids_textless
             [Sample.leaf "{http://pubchem.ncbi.nlm.nih.gov/pug_rest}CID" "2244"]
             (Sample.node "{http://pubchem.ncbi.nlm.nih.gov/pug_rest}CID" []));
      reflexivity.
  - apply (Hcs Sample.chemspider_ids_textless
             [Sample.leaf (Sample.cs "int") "2157"]
             (Sample.node (Sample.cs "int") []) []
             ["2157"] [Sample.chemspider_aspirin]); try reflexivity.
    split; [reflexivity|].
    intros [|i] id d Hid Hd; simpl in Hid, Hd; try discriminate.
    inversion Hid; inversion Hd; subst; reflexivity.
Defined.

Lemma search_records_unused_fields_witness :
  Forall (fun compound =>
            _imageUrl compound = Some "" /\ _formula compound = Some ""
            /\ _molWeight compound = Some "") Sample.pubchem_found
  /\ Forall (fun compound =>
               _imageUrl compound = Some "" /\ _formula compound = Some "")
       Sample.chemspider_found.
Proof.
  destruct (search_records_unused_fields "aspirin" Sample.net Sample.w0)
    as [Hpub Hcs].
  split.
  - apply (Hpub _ (add_requests Sample.pubchem_asked Sample.w0)).
    vm_compute. reflexivity.
  - apply (Hcs _ (add_requests Sample.chemspider_asked Sample.w0)).
    vm_compute. reflexivity.
Defined.

Lemma chemspider_record_last_element_wins_witness :
  _name (chemspider_record Sample.chemspider_renamed) = None.
Proof.
  apply (chemspider_record_last_element_wins Sample.chemspider_renamed
           [Sample.leaf (Sample.cs "CSID") "2157";
            Sample.leaf (Sample.cs "CommonName") "Aspirin";
            Sample.leaf (Sample.cs "SMILES") "CC(=O)Oc1ccccc1C(=O)O"]
           (Sample.node (Sample.cs "CommonName") []) []
           "CommonName" _name).
  - simpl. tauto.
  - reflexivity.
  - reflexivity.
  - constructor.
Defined.


Lemma main_prints_last_name_witness :
  main registered (Parsed [("-n", "aspirin"); ("-o", "out.txt")] []) Sample.net
    Sample.w0
  = write_output (Some "out.txt") false
      (Some (Sample.pubchem_found ++ Sample.chemspider_found)) Sample.net
      (add_stdout
         (NL +:+ blocks (Sample.pubchem_found ++ Sample.chemspider_found)
          +:+ "---------" +:+ NL +:+ NL)
         (add_requests (Sample.pubchem_asked ++ Sample.chemspider_asked) Sample.w0)).
Proof.
  apply (main_prints_last_name registered [("-n", "aspirin"); ("-o", "out.txt")] []
           Sample.net Sample.w0 Sample.w0
           (add_requests (Sample.pubchem_asked ++ Sample.chemspider_asked) Sample.w0)
           (mkOptions (Some "out.txt") false (Some ["aspirin"]) false)
           ["aspirin"] [Sample.pubchem_found ++ Sample.chemspider_found]).
  - vm_compute. reflexivity.
  - reflexivity.
  - apply names_answered_cons
      with (w1 := add_requests (Sample.pubchem_asked ++ Sample.chemspider_asked)
                    Sample.w0);
      [vm_compute; reflexivity | discriminate | apply names_answered_nil].
  - reflexivity.
Defined.

Lemma names_loop_needs_records_witness :
  exists founds,
    names_answered registered Sample.net ["aspirin"] Sample.w0 founds
      (add_requests (Sample.pubchem_asked ++ Sample.chemspider_asked) Sample.w0)
    /\ length founds = 1
    /\ Some (Sample.pubchem_found ++ Sample.chemspider_found)
       = match last founds with Some l => Some l | None => None end.
Proof.
  apply (names_loop_needs_records registered ["aspirin"] None Sample.net Sample.w0).
  vm_compute. reflexivity.
Defined.

Lemma main_without_names_exits_witness :
  main registered (Parsed [("-v", ""); ("-o", "out.txt")] []) Sample.net Sample.w0
  = (Raises (SystemExit 2),
     add_stdout ("You are pleased to specify one or more name(s)." +:+ NL)
       Sample.w0).
Proof.
  apply main_without_names_exits.
  constructor; [simpl; tauto|]. constructor; [simpl; tauto|]. constructor.
Defined.

Lemma main_help_raises_NameError_witness :
  main registered (Parsed [("-n", "aspirin"); ("-h", "")] []) Sample.net Sample.w0
  = (Raises (NameError "usage"), Sample.w0).
Proof.
  destruct (main_help_raises_NameError registered Sample.net Sample.w0) as [Hhelp _].
  apply (Hhelp [("-n", "aspirin")] "-h" "" [] []).
  - constructor; [simpl; tauto|]. constructor.
  - simpl. tauto.
Defined.

Lemma main_lists_registered_backends_witness :
  main registered (Parsed [("-f", ""); ("--list-databases", ""); ("-n", "x")] [])
    Sample.net Sample.w0
  = (Raises (SystemExit 0),
     add_stdout ("List of available Online Database Modules: PubChem,ChemSpider"
                 +:+ NL) Sample.w0).
Proof.
  apply (main_lists_registered_backends registered [("-f", "")]
           "--list-databases" "" [("-n", "x")] [] Sample.net Sample.w0).
  - constructor; [simpl; tauto|]. constructor.
  - simpl. tauto.
Defined.

Lemma main_without_output_touches_no_file_witness :
  files (snd (main registered (Parsed [("-n", "aspirin"); ("-f", "")] [])
                Sample.net Sample.w_out))
  = files Sample.w_out.
Proof.
  apply main_without_output_touches_no_file.
  constructor; [split; discriminate|].
  constructor; [split; discriminate|]. constructor.
Defined.

Lemma main_without_force_keeps_existing_files_witness :
  files (snd (main registered (Parsed [("-n", "aspirin"); ("-o", "out.txt")] [])
                Sample.net Sample.w_out)) !! "out.txt"
  = Some (File "kept").
Proof.
  apply main_without_force_keeps_existing_files.
  - constructor; [split; [simpl; tauto | discriminate]|].
    constructor; [split; [simpl; tauto | discriminate]|]. constructor.
  - vm_compute. reflexivity.
Defined.

Lemma ChemSpiderOD_searchurl_is_encoded_witness :
  urllib_parse.quote "aspirin" = "aspirin".
Proof.
  destruct (ChemSpiderOD_searchurl_is_encoded "aspirin") as (_ & _ & _ & Hsafe).
  apply Hsafe. reflexivity.
Defined.

Lemma getCompoundFromCID_answered_witness :
  PubChem.getCompoundFromCID (Some "517180") Sample.net_renamed Sample.w0
  = (Returns (pubchem_record "517180" Sample.pubchem_record_renamed),
     add_request (PubChem.cid_resturl "517180") Sample.w0)
  /\ PubChem.getCompoundFromCID (Some "517180") Sample.net_unlabelled Sample.w0
     = (Raises (AttributeError "text"),
        add_request (PubChem.cid_resturl "517180") Sample.w0).
Proof.
  split.
  - apply (getCompoundFromCID_answered "517180" Sample.net_renamed Sample.w0
             Sample.pubchem_record_renamed). reflexivity.
  - apply (getCompoundFromCID_answered "517180" Sample.net_unlabelled Sample.w0
             Sample.pubchem_record_unlabelled). reflexivity.
Defined.

Lemma pubchem_record_last_label_wins_witness :
  _name (pubchem_record "517180" Sample.pubchem_record_renamed)
  = Some "2-acetyloxybenzoic acid"
  /\ _smiles (pubchem_record "517180" Sample.pubchem_record_renamed) = Some "".
Proof.
  destruct (pubchem_record_last_label_wins "517180" Sample.pubchem_record_renamed)
    as (Hname & _ & _ & Hsmiles).
  split.
  - apply (Hname [Sample.info_data "IUPAC Name" "2-acetoxybenzoic acid"]
             (Sample.info_data "IUPAC Name" "2-acetyloxybenzoic acid")
             [Sample.info_data_valueless "Fingerprint"]).
    + reflexivity.
    + reflexivity.
    + constructor; [discriminate|]. constructor.
  - apply Hsmiles.
    constructor; [discriminate|]. constructor; [discriminate|].
    constructor; [discriminate|]. constructor.
Defined.

Lemma getCompoundFromCSID_reads_document_witness :
  ChemSpiderOD.getCompoundFromCSID (Some "10442445") Sample.net_textless
    (add_request (ChemSpiderOD.searchurl "aspirin") Sample.w0)
  = (Returns (chemspider_record Sample.chemspider_aspirin_sodium),
     add_request (ChemSpiderOD.apiurl "10442445")
       (add_request (ChemSpiderOD.searchurl "aspirin") Sample.w0))
  /\ _molWeight (chemspider_record Sample.chemspider_renamed) = Some "".
Proof.
  split.
  - apply (getCompoundFromCSID_reads_document "10442445" Sample.net_textless _
             Sample.chemspider_aspirin_sodium). reflexivity.
  - destruct (getCompoundFromCSID_reads_document "2157"
                (fun _ _ => Some (Xml Sample.chemspider_renamed)) Sample.w0
                Sample.chemspider_renamed eq_refl) as [_ Hdefault].
    apply (Hdefault "MolecularWeight" _molWeight).
    + simpl. tauto.
    + repeat (constructor; [discriminate|]). constructor.
Defined.
